(** * UADIA panel: the real-time console and stats consumers

    A shallow embedding of [backend/consumers.py] (the two Channels
    consumers [ServerConsoleConsumer] and [ServerStatsConsumer]) together
    with the part of [backend/models.py] they touch, and the properties of
    the container session manager checked against it.

    Conventions of the embedding:
    - a Python [str] is the Rocq [string] of its UTF-8 bytes; substring
      tests ([x in s]) on the ASCII markers used here are insensitive to
      the encoding, while [upper], [strip] and [int] below follow Python
      on ASCII text only;
    - a coroutine is run to completion as one step of a state-and-exception
      monad over the pair (consumer object, world); [try/except Exception]
      is [try_except];
    - the world holds what the consumers share: the database tables, the
      container runtime, the channel-layer groups, the asyncio tasks and a
      chronological trace of the calls made to the outside. *)

From Stdlib Require Import ZArith QArith Qround Ascii String Sorted.
From stdpp Require Import gmap strings list.

(** ** Python strings *)

Module PyStr.

(** [str.upper] on the ASCII letters. Outside ASCII Python follows the
    Unicode tables; the results on the classifier are therefore stated
    for an arbitrary upper-casing function, see [parse_log_level_with]. *)
Definition upper_char (c : ascii) : ascii :=
  let n := nat_of_ascii c in
  if (97 <=? n)%nat && (n <=? 122)%nat then ascii_of_nat (n - 32) else c.

Fixpoint upper (s : string) : string :=
  match s with
  | EmptyString => EmptyString
  | String c t => String (upper_char c) (upper t)
  end.

(** [hay.startswith(needle)] *)
Fixpoint startswith (needle hay : string) : bool :=
  match needle, hay with
  | EmptyString, _ => true
  | String a n', String b h' => if decide (a = b) then startswith n' h' else false
  | String _ _, EmptyString => false
  end.

(** [needle in hay]: some suffix of [hay] starts with [needle]. *)
Fixpoint str_in (needle hay : string) : bool :=
  startswith needle hay ||
  match hay with
  | EmptyString => false
  | String _ h' => str_in needle h'
  end.

(** The mathematical reading of [needle in hay]. *)
Definition Substring (needle hay : string) : Prop :=
  exists pre post, hay = pre +:+ needle +:+ post.

(** [int(s)] for a string of ASCII digits; anything else is taken as a
    [ValueError] ([None]). The digits of other scripts, which the URL
    pattern [\d+] and [int] accept too, are not covered. *)
Definition digit_of (c : ascii) : option Z :=
  let n := nat_of_ascii c in
  if (48 <=? n)%nat && (n <=? 57)%nat then Some (Z.of_nat (n - 48)) else None.

Fixpoint int_digits (acc : Z) (s : string) : option Z :=
  match s with
  | EmptyString => Some acc
  | String c t =>
      match digit_of c with
      | Some d => int_digits (10 * acc + d) t
      | None => None
      end
  end.

Definition int_of_str (s : string) : option Z :=
  match s with
  | EmptyString => None
  | _ => int_digits 0 s
  end.

(** [str.strip()] on ASCII white space. *)
Definition is_space (c : ascii) : bool :=
  let n := nat_of_ascii c in
  ((9 <=? n)%nat && (n <=? 13)%nat) || ((28 <=? n)%nat && (n <=? 32)%nat).

Fixpoint lstrip (s : string) : string :=
  match s with
  | EmptyString => EmptyString
  | String c t => if is_space c then lstrip t else s
  end.

Fixpoint rstrip (s : string) : string :=
  match s with
  | EmptyString => EmptyString
  | String c t =>
      match rstrip t with
      | EmptyString => if is_space c then EmptyString else String c EmptyString
      | t' => String c t'
      end
  end.

Definition strip (s : string) : string := rstrip (lstrip s).

(** [s.isascii()] *)
Fixpoint is_ascii (s : string) : bool :=
  match s with
  | EmptyString => true
  | String c t => (nat_of_ascii c <=? 127)%nat && is_ascii t
  end.

(** Well-formed UTF-8, as the strict decoder accepts it: shortest forms
    only, no surrogates, nothing above U+10FFFF. *)
Definition byte_in (lo hi : nat) (c : ascii) : bool :=
  let n := nat_of_ascii c in (lo <=? n)%nat && (n <=? hi)%nat.

Fixpoint utf8_valid (s : string) : bool :=
  match s with
  | EmptyString => true
  | String b0 t =>
      let n := nat_of_ascii b0 in
      if (n <=? 127)%nat then utf8_valid t
      else if byte_in 194 223 b0 then
        match t with
        | String b1 t1 => byte_in 128 191 b1 && utf8_valid t1
        | _ => false
        end
      else if byte_in 224 239 b0 then
        match t with
        | String b1 (String b2 t2) =>
            byte_in (if (n =? 224)%nat then 160 else 128)
                    (if (n =? 237)%nat then 159 else 191) b1
            && byte_in 128 191 b2 && utf8_valid t2
        | _ => false
        end
      else if byte_in 240 244 b0 then
        match t with
        | String b1 (String b2 (String b3 t3)) =>
            byte_in (if (n =? 240)%nat then 144 else 128)
                    (if (n =? 244)%nat then 143 else 191) b1
            && byte_in 128 191 b2 && byte_in 128 191 b3 && utf8_valid t3
        | _ => false
        end
      else false
  end.

(** Every character of [s] is white space (the empty string included). *)
Fixpoint all_space (s : string) : bool :=
  match s with
  | EmptyString => true
  | String c t => is_space c && all_space t
  end.

End PyStr.

(** ** The log classifier, [ServerConsoleConsumer.parse_log_level] *)

Module Classifier.
Import PyStr.

Definition parse_log_level_with (up : string -> string) (log_line : string) : string :=
  let log_upper := up log_line in
  if str_in "ERROR" log_upper || str_in "SEVERE" log_upper then "ERROR"
  else if str_in "WARN" log_upper || str_in "WARNING" log_upper then "WARN"
  else if str_in "DEBUG" log_upper then "DEBUG"
  else if str_in "SUCCESS" log_upper || str_in "DONE" log_upper then "SUCCESS"
  else "INFO".

Definition parse_log_level (log_line : string) : string :=
  parse_log_level_with upper log_line.

End Classifier.

(** ** Python values, exceptions and the effect monad *)

Module Py.

(** An exception: its class and [str(e)]. *)
Record Exn := mkExn { exn_class : string; exn_str : string }.

Inductive result (A : Type) : Type :=
| Ok (a : A)
| Raise (e : Exn).
Arguments Ok {A} a.
Arguments Raise {A} e.

(** A computation over a mutable state [S]: the state reached is kept
    also when an exception escapes, as in Python. *)
Definition M (S A : Type) : Type := S -> result A * S.

#[export] Instance M_ret {S} : MRet (M S) := fun A a s => (Ok a, s).

#[export] Instance M_bind {S} : MBind (M S) := fun A B f m s =>
  match m s with
  | (Ok a, s') => f a s'
  | (Raise e, s') => (Raise e, s')
  end.

Definition raise {S A} (e : Exn) : M S A := fun s => (Raise e, s).

(** [try: body except Exception as e: handler e] *)
Definition try_except {S A} (body : M S A) (handler : Exn -> M S A) : M S A :=
  fun s =>
    match body s with
    | (Ok a, s') => (Ok a, s')
    | (Raise e, s') => handler e s'
    end.

(** [try: body except cls: handler]: other classes pass through. *)
Definition try_except_only {S A} (cls : string) (body : M S A) (handler : M S A) : M S A :=
  fun s =>
    match body s with
    | (Ok a, s') => (Ok a, s')
    | (Raise e, s') =>
        if bool_decide (exn_class e = cls) then handler s' else (Raise e, s')
    end.

#[export] Instance result_ret : MRet result := fun A a => Ok a.

#[export] Instance result_bind : MBind result := fun A B f r =>
  match r with
  | Ok a => f a
  | Raise e => Raise e
  end.

Definition gets {S A} (f : S -> A) : M S A := fun s => (Ok (f s), s).
Definition modify {S} (f : S -> S) : M S unit := fun s => (Ok tt, f s).

(** Lifting a pure partial result into the monad. *)
Definition lift {S A} (r : result A) : M S A := fun s => (r, s).

(** [for x in l: body x] *)
Fixpoint for_each {S A} (l : list A) (body : A -> M S unit) : M S unit :=
  match l with
  | [] => mret tt
  | x :: l' => body x ;; for_each l' body
  end.

(** [[f x for x in l]] *)
Fixpoint list_comp {S A B} (l : list A) (f : A -> M S B) : M S (list B) :=
  match l with
  | [] => mret []
  | x :: l' => y ← f x; ys ← list_comp l' f; mret (y :: ys)
  end.

(** Values decoded from JSON, as [container.stats(stream=False)] returns
    them: the runtime reports its counters as integers. *)
#[warnings="-register-all"] Inductive PyVal : Type :=
| PNone
| PInt (z : Z)
| PStr (s : string)
| PDict (items : list (string * PyVal)).

Fixpoint dict_get (k : string) (items : list (string * PyVal)) : option PyVal :=
  match items with
  | [] => None
  | (k', v) :: rest => if decide (k = k') then Some v else dict_get k rest
  end.

Definition KeyError (k : string) : Exn := mkExn "KeyError" ("'" +:+ k +:+ "'").
Definition TypeError (msg : string) : Exn := mkExn "TypeError" msg.
Definition AttributeError (msg : string) : Exn := mkExn "AttributeError" msg.
Definition ValueError (msg : string) : Exn := mkExn "ValueError" msg.
Definition ZeroDivisionError : Exn := mkExn "ZeroDivisionError" "division by zero".

(** [b.decode('utf-8')]: a [str] being its UTF-8 bytes, decoding checks
    the bytes and keeps them. *)
Definition decode_utf8 (b : string) : result string :=
  if PyStr.utf8_valid b then Ok b
  else Raise (mkExn "UnicodeDecodeError" "'utf-8' codec can't decode bytes").

(** [v[k]] *)
Definition getitem (v : PyVal) (k : string) : result PyVal :=
  match v with
  | PDict items =>
      match dict_get k items with
      | Some x => Ok x
      | None => Raise (KeyError k)
      end
  | _ => Raise (TypeError "object is not subscriptable")
  end.

(** Binary floating point is kept abstract: the class lists the
    operations the stats sampler performs and the one law it relies on.
    [truediv a b] is [a / b] on two [int]s, which raises
    [ZeroDivisionError] for [b = 0] and may raise [OverflowError]. *)
Class PyFloat (F : Type) := {
  truediv : Z -> Z -> result F;
  fmul : F -> F -> F;
  f100 : F;
  round2 : F -> F;
  truediv_zero : forall a, truediv a 0%Z = Raise ZeroDivisionError
}.

(** A Python number: the sampler mixes the [int] literal [0] with floats. *)
Inductive PyNum (F : Type) : Type :=
| NInt (z : Z)
| NFloat (x : F).
Arguments NInt {F} z.
Arguments NFloat {F} x.

(** [round(x, 2)]: an [int] is returned as it is. *)
Definition py_round2 {F} `{PyFloat F} (x : PyNum F) : PyNum F :=
  match x with
  | NInt z => NInt z
  | NFloat y => NFloat (round2 y)
  end.

(** [a - b] on decoded JSON values. *)
Definition py_sub (a b : PyVal) : result Z :=
  match a, b with
  | PInt x, PInt y => Ok (x - y)%Z
  | _, _ => Raise (TypeError "unsupported operand type(s) for -")
  end.

Definition as_int (a : PyVal) : result Z :=
  match a with
  | PInt x => Ok x
  | _ => Raise (TypeError "unsupported operand type(s) for /")
  end.

End Py.

(** ** The world shared by the consumers *)

Module Env.
Import Py.

(** *** Rows of [backend/models.py] *)

(** [auth.User]; [AnonymousUser] has [is_authenticated = false]. *)
Record User := { user_pk : Z; is_authenticated : bool }.

(** [UserProfile]: its [owned_servers] relation is what [Server.owners]
    reads back. *)
Record UserProfile := { profile_pk : Z; profile_user : Z }.

(** [Server]. The model class declares no [owner] field: a row built from
    [models.py] has [Server_owner = None], and reading [server.owner]
    raises [AttributeError]. [Some u] stands for a schema that carries
    the attribute, so that the code after the lookup is modelled too. *)
Record Server := {
  Server_id : Z;
  Server_owner : option User;
  Server_owners : list UserProfile
}.

(** [ServerLog]: the fields [server], [timestamp] and [log_entry], and
    the automatic primary key. *)
Record ServerLog := {
  ServerLog_id : Z;
  ServerLog_server_id : Z;
  ServerLog_timestamp : Z;
  ServerLog_log_entry : string
}.

(** Attribute values and JSON atoms. [ATime t] is a [datetime],
    [AIso t] the string [t.isoformat()], [ARef k] a related row. *)
Inductive Atom : Type :=
| AInt (z : Z)
| AStr (s : string)
| ATime (t : Z)
| AIso (t : Z)
| ARef (pk : Z).

(** *** The container runtime *)

(** What the runtime answers for one container: the exception
    [exec_run] raises, if any, and the reply of [stats(stream=False)]. *)
Record ContainerRt := {
  rt_exec_run : option Exn;
  rt_stats : result PyVal
}.

(** *** asyncio tasks *)

Inductive Coro : Type :=
| StreamLogs (container : string)
| SendStatsLoop.

(** [f"minecraft_server_{server_id}"] *)
Definition container_name (sid : string) : string := "minecraft_server_" +:+ sid.

(** A task created by [asyncio.create_task]; [task_cancelled] records
    that [cancel()] was requested on it. *)
Record Task := {
  task_channel : string;
  task_server_id : string;
  task_coro : Coro;
  task_cancelled : bool
}.

(** A task after [cancel()]. *)
Definition cancelled (t : Task) : Task :=
  {| task_channel := task_channel t; task_server_id := task_server_id t;
     task_coro := task_coro t; task_cancelled := true |}.

Section WithFloat.
Context {F : Type}.

(** The dictionary returned by [get_server_stats]. *)
Record StatsSample := {
  cpu_percent : PyNum F;
  memory_mb : PyNum F;
  memory_limit_mb : PyNum F;
  memory_percent : PyNum F;
  online : bool
}.

(** Server-to-client frames, the argument of [json.dumps]. *)
Inductive WsMessage : Type :=
| LogMsg (message log_level timestamp : Atom)
| ErrorMsg (message : string)
| InfoMsg (message : string)
| StatsMsg (data : StatsSample).

(** Calls that leave the consumer, in the order they are made. *)
Inductive Event : Type :=
| EvSend (channel : string) (msg : WsMessage)
| EvAccept (channel : string)
| EvClose (channel : string)
| EvCheckAccess (channel : string) (server : Z) (user : Z)
| EvDockerFromEnv
| EvContainersGet (name : string)
| EvExecRun (name cmd : string)
| EvStats (name : string)
| EvLogs (name : string)
| EvLogger (level text : string).

Record World := {
  db_Server : list Server;
  db_ServerLog : list ServerLog;
  docker_from_env_error : option Exn;
  docker_containers : gmap string ContainerRt;
  groups : gmap string (list string);
  tasks : list Task;
  now : Z;
  trace : list Event
}.

(** Appending to the trace: the only way the trace changes. *)
Definition add_events (evs : list Event) (w : World) : World :=
  {| db_Server := db_Server w; db_ServerLog := db_ServerLog w;
     docker_from_env_error := docker_from_env_error w;
     docker_containers := docker_containers w; groups := groups w;
     tasks := tasks w; now := now w; trace := trace w ++ evs |}.

Definition with_groups (f : gmap string (list string) -> gmap string (list string))
    (w : World) : World :=
  {| db_Server := db_Server w; db_ServerLog := db_ServerLog w;
     docker_from_env_error := docker_from_env_error w;
     docker_containers := docker_containers w; groups := f (groups w);
     tasks := tasks w; now := now w; trace := trace w |}.

Definition with_tasks (f : list Task -> list Task) (w : World) : World :=
  {| db_Server := db_Server w; db_ServerLog := db_ServerLog w;
     docker_from_env_error := docker_from_env_error w;
     docker_containers := docker_containers w; groups := groups w;
     tasks := f (tasks w); now := now w; trace := trace w |}.

Definition with_ServerLog (f : list ServerLog -> list ServerLog) (w : World) : World :=
  {| db_Server := db_Server w; db_ServerLog := f (db_ServerLog w);
     docker_from_env_error := docker_from_env_error w;
     docker_containers := docker_containers w; groups := groups w;
     tasks := tasks w; now := now w; trace := trace w |}.

(** The frames written to the sockets, with the connection they went to. *)
Fixpoint sends (tr : list Event) : list (string * WsMessage) :=
  match tr with
  | [] => []
  | EvSend ch m :: tr' => (ch, m) :: sends tr'
  | _ :: tr' => sends tr'
  end.

(** The calls that resolve a container handle. *)
Definition is_resolution (e : Event) : bool :=
  match e with
  | EvDockerFromEnv | EvContainersGet _ => true
  | _ => false
  end.

Definition is_access_check (e : Event) : bool :=
  match e with
  | EvCheckAccess _ _ _ => true
  | _ => false
  end.

(** A stretch of trace in which no access check is made. *)
Definition no_access_check (evs : list Event) : Prop :=
  Forall (fun e => is_access_check e = false) evs.

Definition is_accept (e : Event) : bool :=
  match e with
  | EvAccept _ => true
  | _ => false
  end.

Definition is_exec_run (e : Event) : bool :=
  match e with
  | EvExecRun _ _ => true
  | _ => false
  end.

Definition is_docker_from_env (e : Event) : bool :=
  match e with
  | EvDockerFromEnv => true
  | _ => false
  end.

(** The reader tasks alive for one server. *)
Definition is_reader_of (sid : string) (t : Task) : bool :=
  match task_coro t with
  | StreamLogs _ => bool_decide (task_server_id t = sid) && negb (task_cancelled t)
  | SendStatsLoop => false
  end.

Definition reader_tasks (sid : string) (w : World) : list Task :=
  filter (fun t => is_reader_of sid t = true) (tasks w).

(** The [Server] table holds rows as [models.py] builds them: none has
    an [owner] attribute. *)
Definition models_py_rows (w : World) : Prop :=
  Forall (fun srv => Server_owner srv = None) (db_Server w).

(** The property that no server has two readers at once. *)
Definition at_most_one_reader (w : World) : Prop :=
  forall sid, length (reader_tasks sid w) <= 1.

(** What [exec_run] on handle [h] raises in world [w], if anything. *)
Definition exec_outcome (h : string) (w : World) : option Exn :=
  match docker_containers w !! h with
  | Some rt => rt_exec_run rt
  | None => Some (mkExn "NotFound" ("No such container: " +:+ h))
  end.

(** What resolving the container of server [sid] and reading its
    counters yields in world [w]. *)
Definition fetch_stats (sid : string) (w : World) : result PyVal :=
  match docker_from_env_error w with
  | Some e => Raise e
  | None =>
      match docker_containers w !! container_name sid with
      | Some rt => rt_stats rt
      | None =>
          Raise (mkExn "NotFound" ("No such container: " +:+ container_name sid))
      end
  end.

(** *** Operations on the world, for a consumer object of any class *)

Section Ops.
Context {Self : Type}.
Abbreviation St := (Self * World)%type.

Definition world_gets {A} (f : World -> A) : M St A := gets (fun s => f s.2).
Definition world_modify (f : World -> World) : M St unit :=
  modify (fun s => (s.1, f s.2)).
Definition self_gets {A} (f : Self -> A) : M St A := gets (fun s => f s.1).
Definition self_modify (f : Self -> Self) : M St unit :=
  modify (fun s => (f s.1, s.2)).

Definition emit (e : Event) : M St unit :=
  world_modify (add_events [e]).

Definition logger_error (text : string) : M St unit := emit (EvLogger "ERROR" text).
Definition logger_info (text : string) : M St unit := emit (EvLogger "INFO" text).

(** [datetime.now()] *)
Definition datetime_now : M St Z := world_gets now.

(** [docker.from_env()] *)
Definition docker_from_env : M St unit :=
  emit EvDockerFromEnv ;;
  err ← world_gets docker_from_env_error;
  match err with
  | Some e => raise e
  | None => mret tt
  end.

Definition NotFound (name : string) : Exn :=
  mkExn "NotFound" ("No such container: " +:+ name).

(** [client.containers.get(name)]: the handle is the container's name. *)
Definition containers_get (name : string) : M St string :=
  emit (EvContainersGet name) ;;
  cs ← world_gets docker_containers;
  match cs !! name with
  | Some _ => mret name
  | None => raise (NotFound name)
  end.

(** [container.exec_run(cmd, privileged=True)] *)
Definition exec_run (container cmd : string) : M St unit :=
  emit (EvExecRun container cmd) ;;
  cs ← world_gets docker_containers;
  match cs !! container with
  | Some rt =>
      match rt_exec_run rt with
      | Some e => raise e
      | None => mret tt
      end
  | None => raise (NotFound container)
  end.

(** [container.stats(stream=False)] *)
Definition container_stats (container : string) : M St PyVal :=
  emit (EvStats container) ;;
  cs ← world_gets docker_containers;
  match cs !! container with
  | Some rt => lift (rt_stats rt)
  | None => raise (NotFound container)
  end.

(** [container.logs(stream=True, follow=True, tail=100)]: the lines
    themselves are supplied by the caller of [stream_logs]. *)
Definition container_logs (container : string) : M St unit :=
  emit (EvLogs container) ;;
  cs ← world_gets docker_containers;
  match cs !! container with
  | Some _ => mret tt
  | None => raise (NotFound container)
  end.

(** [channel_layer.group_add(group, channel)] *)
Definition group_add (group channel : string) : M St unit :=
  world_modify (with_groups (fun g =>
    let members := default [] (g !! group) in
    if bool_decide (channel ∈ members) then g
    else <[group := members ++ [channel]]> g)).

(** [channel_layer.group_discard(group, channel)] *)
Definition group_discard (group channel : string) : M St unit :=
  world_modify (with_groups (fun g =>
    match g !! group with
    | Some members =>
        <[group := filter (fun c => c ≠ channel) members]> g
    | None => g
    end)).

(** [asyncio.create_task(coro)]: the task's index in [tasks]. *)
Definition create_task (channel sid : string) (coro : Coro) : M St nat :=
  n ← world_gets (fun w => length (tasks w));
  world_modify (with_tasks (fun ts =>
    ts ++ [{| task_channel := channel; task_server_id := sid;
              task_coro := coro; task_cancelled := false |}])) ;;
  mret n.

(** [task.cancel()] *)
Definition cancel_task (n : nat) : M St unit :=
  world_modify (with_tasks (fun ts =>
    match ts !! n with
    | Some t =>
        <[n := {| task_channel := task_channel t; task_server_id := task_server_id t;
                  task_coro := task_coro t; task_cancelled := true |}]> ts
    | None => ts
    end)).

End Ops.
End WithFloat.

Arguments StatsSample F : clear implicits.
Arguments WsMessage F : clear implicits.
Arguments Event F : clear implicits.
Arguments World F : clear implicits.

End Env.

(** ** The ORM calls made by the consumers *)

Module Django.
Import Py Env PyStr.

Section WithFloat.
Context {F Self : Type}.
Abbreviation St := (Self * World F)%type.

(** Keyword arguments [Model.__init__] accepts for [ServerLog]: its field
    names, the attribute name of the foreign key and [pk]. *)
Definition ServerLog_init_names : list string :=
  ["id"; "pk"; "server"; "server_id"; "timestamp"; "log_entry"].

Definition unexpected_kwargs (kwargs : list (string * string)) : list string :=
  filter (fun k => k ∉ ServerLog_init_names) (kwargs.*1).

Fixpoint kwarg (k : string) (kwargs : list (string * string)) : option string :=
  match kwargs with
  | [] => None
  | (k', v) :: rest => if decide (k = k') then Some v else kwarg k rest
  end.

Definition next_id (rows : list ServerLog) : Z :=
  (1 + foldr (fun r m => Z.max (ServerLog_id r) m) 0 rows)%Z.

Definition IntegrityError (msg : string) : Exn := mkExn "IntegrityError" msg.

(** [repr] of a plain string. *)
Definition repr (s : string) : string := "'" +:+ s +:+ "'".

(** [ServerLog.objects.create] with keyword arguments: [Model.__init__] rejects a
    keyword that names no field with [TypeError] before anything is
    written; otherwise the row is inserted with [timestamp] set by
    [auto_now_add]. Only [server_id] and [log_entry] are read here. *)
Definition ServerLog_objects_create (kwargs : list (string * string)) : M St unit :=
  match unexpected_kwargs kwargs with
  | (_ :: _) as bad =>
      raise (TypeError ("ServerLog() got unexpected keyword arguments: "
                        +:+ String.concat ", " (repr <$> bad)))
  | [] =>
      match kwarg "server_id" kwargs with
      | None => raise (IntegrityError "NOT NULL constraint failed: server_id")
      | Some sid =>
          match int_of_str sid with
          | None => raise (ValueError "Field 'id' expected a number")
          | Some k =>
              servers ← world_gets db_Server;
              if existsb (fun srv => (Server_id srv =? k)%Z) servers then
                t ← datetime_now;
                world_modify (with_ServerLog (fun rows =>
                  rows ++ [{| ServerLog_id := next_id rows;
                              ServerLog_server_id := k;
                              ServerLog_timestamp := t;
                              ServerLog_log_entry :=
                                default "" (kwarg "log_entry" kwargs) |}]))
              else raise (IntegrityError "FOREIGN KEY constraint failed")
          end
      end
  end.

(** [order_by('-timestamp')]: insertion sort, latest first; rows with
    equal timestamps keep the table's order. *)
Fixpoint insert_desc (r : ServerLog) (l : list ServerLog) : list ServerLog :=
  match l with
  | [] => [r]
  | x :: l' =>
      if (ServerLog_timestamp x <=? ServerLog_timestamp r)%Z
      then r :: x :: l'
      else x :: insert_desc r l'
  end.

Definition order_by_timestamp_desc (l : list ServerLog) : list ServerLog :=
  foldr insert_desc [] l.

(** The order of [-timestamp]: [a] may stand before [b]. *)
Definition newer_first (a b : ServerLog) : Prop :=
  (ServerLog_timestamp b <= ServerLog_timestamp a)%Z.

(** [ServerLog.objects.filter(server_id=sid).order_by('-timestamp')[:limit]] *)
Definition ServerLog_recent (sid : string) (limit : nat) : M St (list ServerLog) :=
  match int_of_str sid with
  | None => raise (ValueError "Field 'id' expected a number")
  | Some k =>
      rows ← world_gets db_ServerLog;
      mret (take limit (order_by_timestamp_desc
              (filter (fun r => ServerLog_server_id r = k) rows)))
  end.

(** Attribute lookup on a [ServerLog] row. *)
Definition ServerLog_getattr (row : ServerLog) (name : string) : result Atom :=
  if decide (name = "id") then Ok (AInt (ServerLog_id row))
  else if decide (name = "pk") then Ok (AInt (ServerLog_id row))
  else if decide (name = "server") then Ok (ARef (ServerLog_server_id row))
  else if decide (name = "server_id") then Ok (AInt (ServerLog_server_id row))
  else if decide (name = "timestamp") then Ok (ATime (ServerLog_timestamp row))
  else if decide (name = "log_entry") then Ok (AStr (ServerLog_log_entry row))
  else Raise (AttributeError
                ("'ServerLog' object has no attribute '" +:+ name +:+ "'")).

(** [Server.objects.get(id=sid)] *)
Definition Server_objects_get (sid : string) : M St Server :=
  match int_of_str sid with
  | None => raise (ValueError "Field 'id' expected a number")
  | Some k =>
      servers ← world_gets db_Server;
      match List.find (fun srv => (Server_id srv =? k)%Z) servers with
      | Some srv => mret srv
      | None => raise (mkExn "DoesNotExist" "Server matching query does not exist.")
      end
  end.

(** [server.owner] *)
Definition Server_getattr_owner (server : Server) : result User :=
  match Server_owner server with
  | Some u => Ok u
  | None => Raise (AttributeError "'Server' object has no attribute 'owner'")
  end.

(** [Model.__eq__] between a [User] and a [UserProfile]: instances of
    different model classes are never equal. *)
Definition User_eq_UserProfile (u : User) (p : UserProfile) : bool := false.

(** [Model.__eq__] between two users: same primary key. *)
Definition User_eq (u v : User) : bool := (user_pk u =? user_pk v)%Z.

End WithFloat.
End Django.

(** ** [ServerConsoleConsumer] *)

Module ServerConsoleConsumer.
Import Py Env PyStr Django.

(** The consumer object: one per WebSocket connection. The [scope_]
    fields are the connection scope, the others the attributes set by
    [connect]. *)
Record t := {
  channel_name : string;
  scope_user : User;
  scope_server_id : string;
  server_id : string;
  room_group_name : string;
  docker_client : bool;
  container : option string;
  log_task : option nat
}.

Definition set_container (h : option string) (c : t) : t :=
  {| channel_name := channel_name c; scope_user := scope_user c;
     scope_server_id := scope_server_id c; server_id := server_id c;
     room_group_name := room_group_name c; docker_client := docker_client c;
     container := h; log_task := log_task c |}.

Definition set_docker_client (b : bool) (c : t) : t :=
  {| channel_name := channel_name c; scope_user := scope_user c;
     scope_server_id := scope_server_id c; server_id := server_id c;
     room_group_name := room_group_name c; docker_client := b;
     container := container c; log_task := log_task c |}.

Definition set_log_task (n : option nat) (c : t) : t :=
  {| channel_name := channel_name c; scope_user := scope_user c;
     scope_server_id := scope_server_id c; server_id := server_id c;
     room_group_name := room_group_name c; docker_client := docker_client c;
     container := container c; log_task := n |}.

(** The first five statements of [connect]. *)
Definition init_attrs (c : t) : t :=
  {| channel_name := channel_name c; scope_user := scope_user c;
     scope_server_id := scope_server_id c; server_id := scope_server_id c;
     room_group_name := "console_" +:+ scope_server_id c; docker_client := false;
     container := None; log_task := None |}.

(** A frame received from the client, after [json.loads]. *)
Inductive ClientFrame : Type :=
| BadFrame (e : Exn)
| Frame (type : option string) (command : option string).

Section WithFloat.
Context {F : Type}.
Abbreviation St := (t * World F)%type.

(** [self.send(text_data=json.dumps(msg))] *)
Definition send (msg : WsMessage F) : M St unit :=
  ch ← self_gets channel_name;
  emit (EvSend ch msg).

Definition close : M St unit :=
  ch ← self_gets channel_name;
  emit (EvClose ch).

Definition accept : M St unit :=
  ch ← self_gets channel_name;
  emit (EvAccept ch).

Definition get_timestamp : M St Atom :=
  t ← datetime_now;
  mret (AIso t).

(** The handler the channel layer runs in a member of the group. *)
Definition console_message (channel : string) (message log_level timestamp : Atom)
    : M St unit :=
  emit (EvSend channel (LogMsg message log_level timestamp)).

(** [channel_layer.group_send(group, {'type': 'console_message', ...})]:
    every member of the group runs [console_message] on the event. *)
Definition group_send (group : string) (message log_level timestamp : Atom)
    : M St unit :=
  g ← world_gets groups;
  for_each (default [] (g !! group))
    (fun ch => console_message ch message log_level timestamp).

Definition get_server : M St (option Server) :=
  try_except_only "DoesNotExist"
    (sid ← self_gets server_id;
     srv ← Server_objects_get sid;
     mret (Some srv))
    (mret None).

Definition check_access (server : Server) (user : User) : M St bool :=
  ch ← self_gets channel_name;
  emit (EvCheckAccess ch (Server_id server) (user_pk user)) ;;
  owner ← lift (Server_getattr_owner server);
  mret (User_eq owner user
        || existsb (User_eq_UserProfile user) (Server_owners server)).

Definition save_log (level message : string) : M St unit :=
  try_except
    (sid ← self_gets server_id;
     ServerLog_objects_create
       [("server_id", sid); ("level", level); ("message", message)])
    (fun e => logger_error ("Error saving log: " +:+ exn_str e)).

(** An element of the list [get_recent_logs] returns. *)
Record HistoryEntry := {
  he_message : Atom;
  he_level : Atom;
  he_timestamp : Atom
}.

Definition get_recent_logs (limit : nat) : M St (list HistoryEntry) :=
  sid ← self_gets server_id;
  logs ← ServerLog_recent sid limit;
  list_comp logs (fun log =>
    m ← lift (ServerLog_getattr log "message");
    l ← lift (ServerLog_getattr log "level");
    ts ← lift (ServerLog_getattr log "timestamp");
    mret {| he_message := m; he_level := l; he_timestamp := ts |}).

Definition get_container : M St (option string) :=
  try_except
    (cached ← self_gets container;
     match cached with
     | None =>
         docker_from_env ;;
         self_modify (set_docker_client true) ;;
         sid ← self_gets server_id;
         h ← containers_get (container_name sid);
         self_modify (set_container (Some h))
     | Some _ => mret tt
     end ;;
     self_gets container)
    (fun e =>
       logger_error ("Error getting container: " +:+ exn_str e) ;;
       mret None).

(** The shell line handed to [exec_run]. *)
Definition command_line (command : string) : string :=
  "echo '" +:+ command +:+ "' > /minecraft/stdin".

Definition execute_command (command : string) : M St unit :=
  try_except
    (found ← get_container;
     match found with
     | None => send (ErrorMsg "Server container not found")
     | Some h =>
         exec_run h (command_line command) ;;
         save_log "COMMAND" ("> " +:+ command) ;;
         room ← self_gets room_group_name;
         ts ← get_timestamp;
         group_send room (AStr ("> " +:+ command)) (AStr "COMMAND") ts
     end)
    (fun e =>
       logger_error ("Error executing command: " +:+ exn_str e) ;;
       send (ErrorMsg ("Failed to execute command: " +:+ exn_str e))).

Definition start_log_stream : M St unit :=
  try_except
    (found ← get_container;
     match found with
     | None => send (InfoMsg "Server is not running")
     | Some h =>
         ch ← self_gets channel_name;
         sid ← self_gets server_id;
         n ← create_task ch sid (StreamLogs h);
         self_modify (set_log_task (Some n))
     end)
    (fun e => logger_error ("Error starting log stream: " +:+ exn_str e)).

(** [self.log_task.cancelled()], as the reader calls it on its own
    task. [Task.cancelled()] is true only of a task that has ended with
    [CancelledError]; for the task that is running the call it is
    [False], also after [cancel()] was requested ([task_cancelled]). *)
Definition log_task_cancelled : M St bool :=
  lt ← self_gets log_task;
  ts ← world_gets tasks;
  match lt with
  | Some n =>
      match ts !! n with
      | Some task => mret false
      | None => raise (AttributeError "no such task")
      end
  | None => raise (AttributeError "'NoneType' object has no attribute 'cancelled'")
  end.

(** The body of the loop of [stream_logs] on one decoded line. *)
Definition stream_logs_line (decoded : string) : M St unit :=
  let log_line := strip decoded in
  if bool_decide (log_line = "") then mret tt
  else
    save_log (Classifier.parse_log_level log_line) log_line ;;
    room ← self_gets room_group_name;
    ts ← get_timestamp;
    group_send room (AStr log_line)
      (AStr (Classifier.parse_log_level log_line)) ts.

(** The loop of [stream_logs] over the byte strings the runtime
    delivers. A [cancel()] requested while the reader runs reaches it as
    [CancelledError] at an [await]; that is not modelled, the loop is
    the run of a reader nobody cancels meanwhile. *)
Fixpoint stream_logs_loop (lines : list string) : M St unit :=
  match lines with
  | [] => mret tt
  | log_bytes :: rest =>
      cancelled ← log_task_cancelled;
      if (cancelled : bool) then mret tt
      else
        decoded ← lift (decode_utf8 log_bytes);
        stream_logs_line decoded ;;
        stream_logs_loop rest
  end.

(** [stream_logs] on the lines the runtime delivers. *)
Definition stream_logs (h : string) (lines : list string) : M St unit :=
  try_except
    (container_logs h ;; stream_logs_loop lines)
    (fun e => logger_error ("Error streaming logs: " +:+ exn_str e)).

Definition send_log_history : M St unit :=
  try_except
    (logs ← get_recent_logs 100;
     for_each logs (fun log =>
       ts ← match he_timestamp log with
            | ATime t => mret (AIso t)
            | _ => raise (AttributeError "object has no attribute 'isoformat'")
            end;
       send (LogMsg (he_message log) (he_level log) ts)))
    (fun e => logger_error ("Error sending log history: " +:+ exn_str e)).

Definition connect : M St unit :=
  self_modify init_attrs ;;
  user ← self_gets scope_user;
  if negb (is_authenticated user) then close
  else
    server ← get_server;
    match server with
    | None => close
    | Some srv =>
        has_access ← check_access srv user;
        if negb (has_access : bool) then close
        else
          room ← self_gets room_group_name;
          ch ← self_gets channel_name;
          group_add room ch ;;
          accept ;;
          start_log_stream
    end.

Definition disconnect : M St unit :=
  lt ← self_gets log_task;
  match lt return M St unit with
  | Some n => cancel_task n
  | None => mret tt
  end ;;
  room ← self_gets room_group_name;
  ch ← self_gets channel_name;
  group_discard room ch.

Definition receive (frame : ClientFrame) : M St unit :=
  try_except
    (match frame with
     | BadFrame e => raise e
     | Frame type command =>
         if bool_decide (type = Some "command") then
           execute_command (default "" command)
         else if bool_decide (type = Some "get_history") then
           send_log_history
         else mret tt
     end)
    (fun e =>
       logger_error ("Error in receive: " +:+ exn_str e) ;;
       send (ErrorMsg (exn_str e))).

(** Several connections reach [start_log_stream], one after the other. *)
Fixpoint attach_all (cs : list t) (w : World F) : list t * World F :=
  match cs with
  | [] => ([], w)
  | c :: rest =>
      let r := start_log_stream (c, w) in
      let rs := attach_all rest r.2.2 in
      (r.2.1 :: rs.1, rs.2)
  end.

(** The reader task a connection creates for itself. *)
Definition reader_task_of (c : t) : Task :=
  {| task_channel := channel_name c; task_server_id := server_id c;
     task_coro := StreamLogs (container_name (server_id c));
     task_cancelled := false |}.


(** The frame that echoes a command. *)
Definition command_echo (command : string) (w : World F) : WsMessage F :=
  LogMsg (AStr ("> " +:+ command)) (AStr "COMMAND") (AIso (now w)).


(** The text [save_log] hands to the logger. *)
Definition save_log_report : string :=
  "Error saving log: ServerLog() got unexpected keyword arguments: 'level', 'message'".

(** The attributes of a connection that identify it and its reader. *)
Definition same_identity (c c' : t) : Prop :=
  channel_name c' = channel_name c /\ server_id c' = server_id c /\
  room_group_name c' = room_group_name c /\ log_task c' = log_task c.

(** The two ways a command can end, read off the events [evs] it added:
    an echo to every member of the group after one [exec_run], or one
    error frame to the submitter alone. *)
Definition command_outcome (c : t) (w : World F) (command : string)
    (evs : list (Event F)) : Prop :=
  (sends evs = (fun ch => (ch, command_echo command w))
                 <$> default [] (groups w !! room_group_name c) /\
   length (filter (fun e => is_exec_run e = true) evs) = 1) \/
  (exists msg, sends evs = [(channel_name c, ErrorMsg msg)] /\
     length (filter (fun e => is_exec_run e = true) evs) <= 1).

(** The frames of a connection handled in the order they arrive. *)
Definition receive_all (frames : list ClientFrame) : M St unit :=
  for_each frames receive.

(** The frames one container line is broadcast as in group [room]. *)
Definition line_frames (room : string) (w : World F) (decoded : string)
    : list (string * WsMessage F) :=
  let log_line := strip decoded in
  if bool_decide (log_line = "") then []
  else (fun ch => (ch, LogMsg (AStr log_line)
                         (AStr (Classifier.parse_log_level log_line))
                         (AIso (now w))))
         <$> default [] (groups w !! room).

End WithFloat.
End ServerConsoleConsumer.

(** ** [ServerStatsConsumer] *)

Module ServerStatsConsumer.
Import Py Env PyStr.

Record t := {
  channel_name : string;
  scope_user : User;
  scope_server_id : string;
  server_id : string;
  room_group_name : string;
  stats_task : option nat
}.

Definition set_stats_task (n : option nat) (c : t) : t :=
  {| channel_name := channel_name c; scope_user := scope_user c;
     scope_server_id := scope_server_id c; server_id := server_id c;
     room_group_name := room_group_name c; stats_task := n |}.

(** The first three statements of [connect]. *)
Definition init_attrs (c : t) : t :=
  {| channel_name := channel_name c; scope_user := scope_user c;
     scope_server_id := scope_server_id c; server_id := scope_server_id c;
     room_group_name := "stats_" +:+ scope_server_id c; stats_task := None |}.

Section WithFloat.
Context {F : Type} {PF : PyFloat F}.
Abbreviation St := (t * World F)%type.

Definition send (msg : WsMessage F) : M St unit :=
  ch ← self_gets channel_name;
  emit (EvSend ch msg).

Definition close : M St unit :=
  ch ← self_gets channel_name;
  emit (EvClose ch).

Definition accept : M St unit :=
  ch ← self_gets channel_name;
  emit (EvAccept ch).

Definition connect : M St unit :=
  self_modify init_attrs ;;
  user ← self_gets scope_user;
  if negb (is_authenticated user) then close
  else
    room ← self_gets room_group_name;
    ch ← self_gets channel_name;
    group_add room ch ;;
    accept ;;
    sid ← self_gets server_id;
    n ← create_task ch sid SendStatsLoop;
    self_modify (set_stats_task (Some n)).

Definition disconnect : M St unit :=
  st ← self_gets stats_task;
  match st return M St unit with
  | Some n => cancel_task n
  | None => mret tt
  end ;;
  room ← self_gets room_group_name;
  ch ← self_gets channel_name;
  group_discard room ch.

(** [v[k1][k2]] and [v[k1][k2][k3]] *)
Definition getitem2 (v : PyVal) (k1 k2 : string) : result PyVal :=
  x ← getitem v k1; getitem x k2.

Definition getitem3 (v : PyVal) (k1 k2 k3 : string) : result PyVal :=
  x ← getitem v k1; y ← getitem x k2; getitem y k3.

(** The block "Calculate CPU usage" of [get_server_stats]. *)
Definition calc_cpu_percent (stats : PyVal) : result (PyNum F) :=
  cur_total ← getitem3 stats "cpu_stats" "cpu_usage" "total_usage";
  pre_total ← getitem3 stats "precpu_stats" "cpu_usage" "total_usage";
  cpu_delta ← py_sub cur_total pre_total;
  cur_system ← getitem2 stats "cpu_stats" "system_cpu_usage";
  pre_system ← getitem2 stats "precpu_stats" "system_cpu_usage";
  system_delta ← py_sub cur_system pre_system;
  if (0 <? system_delta)%Z then
    q ← truediv cpu_delta system_delta;
    mret (NFloat (fmul q f100))
  else mret (NInt 0).

(** The sample of the [except] branch. *)
Definition offline_sample : StatsSample F :=
  {| cpu_percent := NInt 0; memory_mb := NInt 0; memory_limit_mb := NInt 0;
     memory_percent := NInt 0; online := false |}.

(** The statements of the [try] block after the counters are fetched. *)
Definition sample_of_stats (stats : PyVal) : result (StatsSample F) :=
  cpu ← calc_cpu_percent stats;
  usage_v ← getitem2 stats "memory_stats" "usage";
  limit_v ← getitem2 stats "memory_stats" "limit";
  memory_usage ← as_int usage_v;
  memory_limit ← as_int limit_v;
  ratio ← truediv memory_usage memory_limit;
  let memory_percent := fmul ratio f100 in
  usage_mb ← truediv memory_usage (1024 * 1024);
  limit_mb ← truediv memory_limit (1024 * 1024);
  mret {| cpu_percent := py_round2 cpu;
          memory_mb := NFloat (round2 usage_mb);
          memory_limit_mb := NFloat (round2 limit_mb);
          memory_percent := NFloat (round2 memory_percent);
          online := true |}.

(** The sample a tick ends with, given what the [try] block produced. *)
Definition sample_or_offline (r : result (StatsSample F)) : StatsSample F :=
  match r with
  | Ok s => s
  | Raise _ => offline_sample
  end.

(** The sample a tick computes in world [w]. *)
Definition sample_in (c : t) (w : World F) : StatsSample F :=
  sample_or_offline (fetch_stats (server_id c) w ≫= sample_of_stats).

Definition get_server_stats : M St (StatsSample F) :=
  try_except
    (docker_from_env ;;
     sid ← self_gets server_id;
     h ← containers_get (container_name sid);
     stats ← container_stats h;
     lift (sample_of_stats stats))
    (fun e =>
       logger_error ("Error getting server stats: " +:+ exn_str e) ;;
       mret offline_sample).

(** One iteration of the loop of [send_stats_loop], up to the sleep. *)
Definition send_stats_tick : M St unit :=
  stats ← get_server_stats;
  send (StatsMsg stats).

(** The first [ticks] iterations of [send_stats_loop]. *)
Fixpoint send_stats_iter (ticks : nat) : M St unit :=
  match ticks with
  | O => mret tt
  | S n => send_stats_tick ;; send_stats_iter n
  end.

Definition send_stats_loop (ticks : nat) : M St unit :=
  try_except (send_stats_iter ticks)
    (fun e => logger_error ("Error in stats loop: " +:+ exn_str e)).

End WithFloat.
End ServerStatsConsumer.

(** ** Exact rationals as an instance of the float interface *)

(** An idealisation used to run the sampler on concrete counters: it
    rounds exactly where binary floats round their nearest value, and
    it never overflows. The properties of the sampler are stated for
    every instance of [PyFloat], not for this one. *)

Module QFloat.
Import Py.

Definition q_truediv (a b : Z) : result Q :=
  if (b =? 0)%Z then Raise ZeroDivisionError
  else Ok (Qred (inject_Z a / inject_Z b)).

(** Rounding to two decimals, ties to even. *)
Definition q_round2 (x : Q) : Q :=
  let y := (x * 100)%Q in
  let f := Qfloor y in
  let r := (y - inject_Z f)%Q in
  let n :=
    match (r ?= 1 # 2)%Q with
    | Lt => f
    | Gt => (f + 1)%Z
    | Eq => if Z.even f then f else (f + 1)%Z
    end in
  Qred (inject_Z n / 100).

#[export] Instance Q_PyFloat : PyFloat Q := {|
  truediv := q_truediv;
  fmul := fun x y => Qred (x * y);
  f100 := 100%Q;
  round2 := q_round2;
  truediv_zero := fun a => eq_refl
|}.

End QFloat.

(** ** Concrete worlds used to run the model *)

Module Scenario.
Import Py Env QFloat.

(** The reply of [container.stats(stream=False)], reduced to the
    counters the sampler reads. *)
Definition mk_stats (cur_total pre_total cur_system pre_system usage limit : Z) : PyVal :=
  PDict
    [("cpu_stats",
      PDict [("cpu_usage", PDict [("total_usage", PInt cur_total)]);
             ("system_cpu_usage", PInt cur_system)]);
     ("precpu_stats",
      PDict [("cpu_usage", PDict [("total_usage", PInt pre_total)]);
             ("system_cpu_usage", PInt pre_system)]);
     ("memory_stats", PDict [("usage", PInt usage); ("limit", PInt limit)])].

Definition alice : User := {| user_pk := 1; is_authenticated := true |}.
Definition mallory : User := {| user_pk := 9; is_authenticated := true |}.

(** Server 7 as [models.py] builds it, owned by alice's profile. *)
Definition server7 : Server :=
  {| Server_id := 7; Server_owner := None;
     Server_owners := [{| profile_pk := 1; profile_user := 1 |}] |}.

Definition one_log : ServerLog :=
  {| ServerLog_id := 1; ServerLog_server_id := 7; ServerLog_timestamp := 5;
     ServerLog_log_entry := "[Server] Done (3.2s)!" |}.

Definition running7 : ContainerRt :=
  {| rt_exec_run := None;
     rt_stats := Ok (mk_stats 150 100 1200 1000 (512 * 1048576) (2048 * 1048576)) |}.

(** The container of server 7 runs; connections [a] and [b] are in its
    console group; one log row is stored. *)
Definition world_running : World Q :=
  {| db_Server := [server7]; db_ServerLog := [one_log];
     docker_from_env_error := None;
     docker_containers := {[ "minecraft_server_7" := running7 ]};
     groups := {[ "console_7" := ["a"; "b"] ]};
     tasks := []; now := 42; trace := [] |}.

(** The same world with no container in the runtime. *)
Definition world_stopped : World Q :=
  {| db_Server := [server7]; db_ServerLog := [one_log];
     docker_from_env_error := None;
     docker_containers := ∅;
     groups := {[ "console_7" := ["a"; "b"] ]};
     tasks := []; now := 42; trace := [] |}.

(** A container on which [exec_run] fails. *)
Definition broken7 : ContainerRt :=
  {| rt_exec_run := Some (mkExn "APIError" "container is not running");
     rt_stats := Raise (mkExn "APIError" "container is not running") |}.

Definition world_broken : World Q :=
  {| db_Server := [server7]; db_ServerLog := [one_log];
     docker_from_env_error := None;
     docker_containers := {[ "minecraft_server_7" := broken7 ]};
     groups := {[ "console_7" := ["a"; "b"] ]};
     tasks := []; now := 42; trace := [] |}.

(** A running container that reports a memory limit of 0. *)
Definition unlimited7 : ContainerRt :=
  {| rt_exec_run := None;
     rt_stats := Ok (mk_stats 150 100 1200 1000 (512 * 1048576) 0) |}.

Definition world_unlimited : World Q :=
  {| db_Server := [server7]; db_ServerLog := [one_log];
     docker_from_env_error := None;
     docker_containers := {[ "minecraft_server_7" := unlimited7 ]};
     groups := {[ "console_7" := ["a"; "b"] ]};
     tasks := []; now := 42; trace := [] |}.

(** An older and a newer row of server 7 and a row of server 8. *)
Definition three_logs : list ServerLog :=
  [ {| ServerLog_id := 1; ServerLog_server_id := 7; ServerLog_timestamp := 5;
       ServerLog_log_entry := "first" |};
    {| ServerLog_id := 2; ServerLog_server_id := 8; ServerLog_timestamp := 6;
       ServerLog_log_entry := "other server" |};
    {| ServerLog_id := 3; ServerLog_server_id := 7; ServerLog_timestamp := 9;
       ServerLog_log_entry := "second" |} ].

Definition world_three_logs : World Q :=
  {| db_Server := [server7]; db_ServerLog := three_logs;
     docker_from_env_error := None;
     docker_containers := {[ "minecraft_server_7" := running7 ]};
     groups := {[ "console_7" := ["a"; "b"] ]};
     tasks := []; now := 42; trace := [] |}.

Definition console_conn (channel : string) (user : User) : ServerConsoleConsumer.t :=
  ServerConsoleConsumer.init_attrs
    {| ServerConsoleConsumer.channel_name := channel;
       ServerConsoleConsumer.scope_user := user;
       ServerConsoleConsumer.scope_server_id := "7";
       ServerConsoleConsumer.server_id := "";
       ServerConsoleConsumer.room_group_name := "";
       ServerConsoleConsumer.docker_client := false;
       ServerConsoleConsumer.container := None;
       ServerConsoleConsumer.log_task := None |}.

Definition conn_a : ServerConsoleConsumer.t := console_conn "a" alice.
Definition conn_b : ServerConsoleConsumer.t := console_conn "b" alice.

(** Connection [a] holding the handle it resolved while the container ran. *)
Definition conn_a_cached : ServerConsoleConsumer.t :=
  ServerConsoleConsumer.set_container (Some "minecraft_server_7") conn_a.

(** A stats connection opened by a user with no relation to server 7. *)
Definition stats_conn : ServerStatsConsumer.t :=
  {| ServerStatsConsumer.channel_name := "s";
     ServerStatsConsumer.scope_user := mallory;
     ServerStatsConsumer.scope_server_id := "7";
     ServerStatsConsumer.server_id := "";
     ServerStatsConsumer.room_group_name := "";
     ServerStatsConsumer.stats_task := None |}.

End Scenario.

(** * Properties *)

(** ** Substring tests and the classifier *)

Module ClassifierFacts.
Import PyStr Classifier.

Lemma app_String (a : ascii) (s t : string) : String a s +:+ t = String a (s +:+ t).
Proof. reflexivity. Qed.

Lemma startswith_spec (needle hay : string) :
  startswith needle hay = true <-> exists post, hay = needle +:+ post.
Proof.
  revert hay. induction needle as [|a n IH]; intros hay; simpl.
  - split; [intros _; by exists hay | done].
  - destruct hay as [|b h].
    + split; [done | intros [post H]; discriminate H].
    + destruct (decide (a = b)) as [->|Hne].
      * rewrite IH. split; intros [post H]; exists post.
        -- by rewrite app_String, H.
        -- rewrite app_String in H. by injection H.
      * split; [done | intros [post H]]. rewrite app_String in H.
        injection H as H1 H2. by destruct Hne.
Qed.

(** The executable test [needle in hay] decides [Substring]. *)
Lemma str_in_spec (needle hay : string) :
  str_in needle hay = true <-> Substring needle hay.
Proof.
  unfold Substring. induction hay as [|b h IH].
  - simpl. rewrite orb_false_r, startswith_spec. split.
    + intros [post H]. by exists "", post.
    + intros [pre [post H]]. destruct pre as [|c pre]; [by exists post|].
      rewrite app_String in H. discriminate H.
  - cbn [str_in]. rewrite orb_true_iff, startswith_spec, IH. split.
    + intros [[post H] | [pre [post H]]].
      * by exists "", post.
      * exists (String b pre), post. by rewrite app_String, H.
    + intros [pre [post H]]. destruct pre as [|c pre].
      * left. by exists post.
      * right. rewrite app_String in H. injection H as H1 H2.
        by exists pre, post.
Qed.

(** "WARNING" adds nothing to "WARN": the second test of that branch is
    subsumed by the first. *)
Lemma warning_has_warn (u : string) : Substring "WARNING" u -> Substring "WARN" u.
Proof.
  intros [pre [post H]]. exists pre, ("ING" +:+ post). subst u.
  f_equal.
Qed.

(** C2. The classifier is total and follows the fixed priority: on the
    upper-cased line, ERROR or SEVERE gives "ERROR"; failing that, WARN or
    WARNING gives "WARN"; failing that, DEBUG gives "DEBUG"; failing that,
    SUCCESS or DONE gives "SUCCESS"; otherwise "INFO". In particular a
    line with both WARN and DEBUG (and no higher marker) is "WARN". The
    statement holds for every upper-casing function. *)
Theorem parse_log_level_priority (up : string -> string) (line : string) :
  let u := up line in
  let level := parse_log_level_with up line in
  let E := Substring "ERROR" u \/ Substring "SEVERE" u in
  let W := Substring "WARN" u \/ Substring "WARNING" u in
  let D := Substring "DEBUG" u in
  let S := Substring "SUCCESS" u \/ Substring "DONE" u in
  (E -> level = "ERROR") /\
  (~ E -> W -> level = "WARN") /\
  (~ E -> ~ W -> D -> level = "DEBUG") /\
  (~ E -> ~ W -> ~ D -> S -> level = "SUCCESS") /\
  (~ E -> ~ W -> ~ D -> ~ S -> level = "INFO") /\
  (~ E -> Substring "WARN" u -> D -> level = "WARN").
Proof.
  cbv zeta. unfold parse_log_level_with.
  rewrite <- !str_in_spec.
  destruct (str_in "ERROR" (up line)), (str_in "SEVERE" (up line)),
    (str_in "WARN" (up line)), (str_in "WARNING" (up line)),
    (str_in "DEBUG" (up line)), (str_in "SUCCESS" (up line)),
    (str_in "DONE" (up line)); simpl; intuition congruence.
Qed.

(** The priority at work on a line that carries both markers. *)
Lemma parse_log_level_priority_witness :
  Substring "WARN" (upper "[12:00:01] warn: debug mode is on") /\
  Substring "DEBUG" (upper "[12:00:01] warn: debug mode is on") /\
  parse_log_level "[12:00:01] warn: debug mode is on" = "WARN".
Proof.
  assert (HW : Substring "WARN" (upper "[12:00:01] warn: debug mode is on"))
    by (apply str_in_spec; vm_compute; reflexivity).
  assert (HD : Substring "DEBUG" (upper "[12:00:01] warn: debug mode is on"))
    by (apply str_in_spec; vm_compute; reflexivity).
  split; [exact HW | split; [exact HD |]].
  refine (proj2 (proj2 (proj2 (proj2 (proj2
            (parse_log_level_priority upper "[12:00:01] warn: debug mode is on")))))
          _ HW HD).
  intros [H | H]; apply str_in_spec in H; vm_compute in H; discriminate H.
Defined.

End ClassifierFacts.

(** ** The trace *)

Ltac munfold :=
  unfold Env.logger_error, Env.logger_info, Env.datetime_now in *;
  unfold Env.emit in *;
  unfold Env.self_gets, Env.self_modify, Env.world_gets, Env.world_modify in *;
  unfold mbind, Py.M_bind, mret, Py.M_ret, Py.result_bind, Py.result_ret,
    Py.try_except, Py.try_except_only, Py.gets, Py.modify, Py.raise, Py.lift in *.

(** Peel the outermost bind of the computation being run. *)
Ltac bind_step := unfold mbind at 1, Py.M_bind at 1.

Module EnvFacts.
Import Py Env.

Section Trace.
Context {F : Type}.
Implicit Types (w : World F) (a b : list (Event F)).

Lemma add_events_app a b w :
  add_events b (add_events a w) = add_events (a ++ b) w.
Proof. unfold add_events; cbn. by rewrite app_assoc. Qed.

Lemma add_events_nil w : add_events [] w = w.
Proof. destruct w. unfold add_events; cbn. by rewrite app_nil_r. Qed.

Lemma sends_app a b : sends (a ++ b) = sends a ++ sends b.
Proof.
  induction a as [|e a IH]; [done|]. destruct e; cbn; by rewrite ?IH.
Qed.

Lemma sends_group (members : list string) (m : WsMessage F) :
  sends ((fun ch => EvSend ch m) <$> members) = (fun ch => (ch, m)) <$> members.
Proof. induction members as [|ch l IH]; [done|]. cbn. by rewrite IH. Qed.

Lemma no_access_check_sends (members : list string) (m : WsMessage F) :
  no_access_check ((fun ch => EvSend ch m) <$> members).
Proof. apply Forall_fmap, Forall_true. by intros ch. Qed.

Lemma no_access_check_filter a :
  no_access_check a -> filter (fun e => is_access_check e = true) a = [].
Proof.
  induction 1 as [|e a He _ IH]; [done|].
  rewrite filter_cons_False; [done | by rewrite He].
Qed.

Lemma reader_tasks_app sid w (ts : list Task) :
  reader_tasks sid (with_tasks (fun l => l ++ ts) w) =
  reader_tasks sid w ++ filter (fun t => is_reader_of sid t = true) ts.
Proof. unfold reader_tasks. cbn. by rewrite filter_app. Qed.

End Trace.

(** Closes [no_access_check] goals on explicit stretches of trace. *)
Ltac quiet :=
  unfold no_access_check in *;
  repeat first
    [ assumption
    | apply Forall_nil_2
    | apply Forall_cons; split; [reflexivity|]
    | apply Forall_app; split
    | apply no_access_check_sends ].

End EnvFacts.

(** ** The console consumer *)

Module ConsoleFacts.
Import Py Env PyStr Django ServerConsoleConsumer EnvFacts.

Section RunEquations.
Context {F : Type}.
Implicit Types (c : t) (w : World F).

(** *** Persistence *)

Lemma create_rejects_kwargs (sid level message : string) c w :
  ServerLog_objects_create
    [("server_id", sid); ("level", level); ("message", message)] (c, w)
  = (Raise (TypeError
       "ServerLog() got unexpected keyword arguments: 'level', 'message'"), (c, w)).
Proof. reflexivity. Qed.

Lemma save_log_run level message c w :
  save_log level message (c, w)
  = (Ok tt, (c, add_events [EvLogger "ERROR" save_log_report] w)).
Proof. reflexivity. Qed.

Lemma get_recent_logs_run limit c w :
  get_recent_logs limit (c, w) =
    (match int_of_str (server_id c) with
     | None => Raise (ValueError "Field 'id' expected a number")
     | Some k =>
         match take limit (order_by_timestamp_desc
                 (filter (fun r => ServerLog_server_id r = k) (db_ServerLog w))) with
         | [] => Ok []
         | _ :: _ =>
             Raise (AttributeError "'ServerLog' object has no attribute 'message'")
         end
     end, (c, w)).
Proof.
  unfold get_recent_logs, ServerLog_recent. munfold. cbn.
  destruct (int_of_str (server_id c)) as [k|]; [|done].
  by destruct (take limit _).
Qed.

(** Whatever the store holds, a history request writes no frame. *)
Lemma send_log_history_sends_nothing c w :
  exists evs,
    send_log_history (c, w) = (Ok tt, (c, add_events evs w)) /\
    sends evs = [] /\ no_access_check evs.
Proof.
  unfold send_log_history. unfold try_except.
  bind_step. rewrite get_recent_logs_run.
  destruct (int_of_str (server_id c)) as [k|].
  - destruct (take 100 _).
    + exists []. rewrite add_events_nil. repeat (split; [done|]). quiet.
    + munfold. eexists. repeat (split; [done|]). quiet.
  - munfold. eexists. repeat (split; [done|]). quiet.
Qed.

(** *** Fan-out *)

Lemma group_send_run room m l ts c w :
  group_send room m l ts (c, w) =
    (Ok tt, (c, add_events
       ((fun ch => EvSend ch (LogMsg m l ts)) <$> default [] (groups w !! room)) w)).
Proof.
  unfold group_send. munfold. cbn.
  generalize (default [] (groups w !! room)). intros members.
  revert w. induction members as [|ch members IH]; intros w; cbn.
  - by rewrite add_events_nil.
  - unfold console_message. munfold. cbn. by rewrite IH, add_events_app.
Qed.

(** *** Resolving the container *)

Lemma get_container_cached c w h :
  container c = Some h -> get_container (c, w) = (Ok (Some h), (c, w)).
Proof.
  intros H. unfold get_container. munfold. cbn. rewrite H. cbn. by rewrite H.
Qed.

Lemma get_container_env_error c w e :
  container c = None -> docker_from_env_error w = Some e ->
  get_container (c, w) =
    (Ok None, (c, add_events [EvDockerFromEnv;
                 EvLogger "ERROR" ("Error getting container: " +:+ exn_str e)] w)).
Proof.
  intros H He. unfold get_container, docker_from_env. munfold. cbn.
  rewrite H. cbn. rewrite He. cbn. by rewrite add_events_app.
Qed.

Lemma get_container_not_found c w :
  container c = None -> docker_from_env_error w = None ->
  docker_containers w !! container_name (server_id c) = None ->
  get_container (c, w) =
    (Ok None, (set_docker_client true c,
       add_events [EvDockerFromEnv; EvContainersGet (container_name (server_id c));
                   EvLogger "ERROR" ("Error getting container: "
                     +:+ exn_str (NotFound (container_name (server_id c))))] w)).
Proof.
  intros H He Hm. unfold get_container, docker_from_env, containers_get. munfold. cbn.
  rewrite H. cbn. rewrite He. cbn. rewrite Hm. cbn.
  by rewrite !add_events_app.
Qed.

Lemma get_container_resolved c w rt :
  container c = None -> docker_from_env_error w = None ->
  docker_containers w !! container_name (server_id c) = Some rt ->
  get_container (c, w) =
    (Ok (Some (container_name (server_id c))),
     (set_container (Some (container_name (server_id c))) (set_docker_client true c),
      add_events [EvDockerFromEnv; EvContainersGet (container_name (server_id c))] w)).
Proof.
  intros H He Hm. unfold get_container, docker_from_env, containers_get. munfold. cbn.
  rewrite H. cbn. rewrite He. cbn. rewrite Hm. cbn.
  by rewrite !add_events_app.
Qed.

(** Whatever else the runtime answers, a resolution that finds no
    container returns [None], leaves the handle unset and touches only
    the trace. *)
Lemma get_container_unresolved c w :
  container c = None ->
  docker_containers w !! container_name (server_id c) = None ->
  exists c' evs,
    get_container (c, w) = (Ok None, (c', add_events evs w)) /\
    container c' = None /\ log_task c' = log_task c /\
    channel_name c' = channel_name c /\ sends evs = [] /\ no_access_check evs.
Proof.
  intros H Hm. destruct (docker_from_env_error w) as [e|] eqn:He.
  - rewrite (get_container_env_error _ _ e) by done.
    eexists _, _. repeat (split; [done|]). quiet.
  - rewrite get_container_not_found by done.
    eexists _, _. repeat (split; [done|]). quiet.
Qed.

(** *** Attaching *)

Lemma start_log_stream_resolved c w rt :
  container c = None -> docker_from_env_error w = None ->
  docker_containers w !! container_name (server_id c) = Some rt ->
  start_log_stream (c, w) =
    (Ok tt,
     (set_log_task (Some (length (tasks w)))
        (set_container (Some (container_name (server_id c))) (set_docker_client true c)),
      with_tasks (fun ts => ts ++ [reader_task_of c])
        (add_events [EvDockerFromEnv; EvContainersGet (container_name (server_id c))] w))).
Proof.
  intros H He Hm. unfold start_log_stream. unfold try_except at 1.
  bind_step. by rewrite (get_container_resolved _ _ rt).
Qed.

Lemma start_log_stream_unresolved c w :
  container c = None ->
  docker_containers w !! container_name (server_id c) = None ->
  exists c' evs,
    start_log_stream (c, w) =
      (Ok tt, (c', add_events
         (evs ++ [EvSend (channel_name c) (InfoMsg "Server is not running")]) w)) /\
    container c' = None /\ log_task c' = log_task c /\ sends evs = [] /\
    no_access_check evs.
Proof.
  intros H Hm.
  destruct (get_container_unresolved c w H Hm)
    as (c' & evs & Hrun & Hc & Hl & Hch & Hs & Hq).
  exists c', evs. split; [|done].
  unfold start_log_stream. unfold try_except at 1.
  bind_step. rewrite Hrun.
  unfold send. munfold. cbn. by rewrite Hch, add_events_app.
Qed.

(** The step of [connect] that follows the accept: when the runtime has
    no container for the server, [start_log_stream] sends the client the
    info frame "Server is not running", creates no task, and leaves the
    connection without handle and without reader; there is no registry
    to enter, and the groups are not touched. *)
Theorem start_log_stream_not_running c w :
  container c = None -> log_task c = None ->
  docker_containers w !! container_name (server_id c) = None ->
  exists c' w',
    start_log_stream (c, w) = (Ok tt, (c', w')) /\
    sends (trace w') =
      sends (trace w) ++ [(channel_name c, InfoMsg "Server is not running")] /\
    tasks w' = tasks w /\
    log_task c' = None /\ container c' = None /\
    groups w' = groups w.
Proof.
  intros H Hl Hm.
  destruct (start_log_stream_unresolved c w H Hm)
    as (c' & evs & Hrun & Hc & Hl' & Hs & _).
  eexists c', _. split; [exact Hrun|].
  cbn. rewrite !sends_app, Hs. cbn. by rewrite Hl'.
Qed.

Lemma attach_all_tasks (cs : list t) w rt sid :
  Forall (fun c => server_id c = sid /\ container c = None) cs ->
  docker_from_env_error w = None ->
  docker_containers w !! container_name sid = Some rt ->
  tasks (attach_all cs w).2 = tasks w ++ (reader_task_of <$> cs).
Proof.
  intros Hcs. revert w. induction Hcs as [|c cs [Hsid Hc] _ IH]; intros w He Hm.
  - cbn. by rewrite app_nil_r.
  - cbn [attach_all]. cbn [snd]. subst sid.
    rewrite (start_log_stream_resolved c w rt) by done. cbn [fst snd].
    rewrite IH by done. cbn. by rewrite <- app_assoc.
Qed.

Lemma filter_readers_of (cs : list t) sid :
  Forall (fun c => server_id c = sid /\ container c = None) cs ->
  filter (fun t => is_reader_of sid t = true) (reader_task_of <$> cs)
  = reader_task_of <$> cs.
Proof.
  induction 1 as [|c cs [Hsid Hc] _ IH]; [done|].
  cbn [fmap list_fmap]. rewrite filter_cons_True.
  - by rewrite IH.
  - unfold is_reader_of, reader_task_of. cbn. rewrite Hsid.
    by rewrite bool_decide_eq_true_2.
Qed.

(** C1, as amended. Every connection creates a reader task of its own:
    when connections for one server reach [start_log_stream] one after
    the other and the container resolves, each appends its own task, so
    the server has as many more readers as there were connections. *)
Theorem attach_creates_own_reader (sid : string) (cs : list t) w rt :
  Forall (fun c => server_id c = sid /\ container c = None) cs ->
  docker_from_env_error w = None ->
  docker_containers w !! container_name sid = Some rt ->
  tasks (attach_all cs w).2 = tasks w ++ (reader_task_of <$> cs) /\
  length (reader_tasks sid (attach_all cs w).2)
  = length (reader_tasks sid w) + length cs.
Proof.
  intros Hcs He Hm. pose proof (attach_all_tasks cs w rt sid Hcs He Hm) as Ht.
  split; [done|]. unfold reader_tasks. rewrite Ht, filter_app, length_app.
  by rewrite (filter_readers_of cs sid Hcs), length_fmap.
Qed.

(** *** Commands *)

Lemma exec_run_run h cmd c w :
  exec_run h cmd (c, w) =
    (match exec_outcome h w with Some e => Raise e | None => Ok tt end,
     (c, add_events [EvExecRun h cmd] w)).
Proof.
  unfold exec_run, exec_outcome. munfold. cbn.
  destruct (docker_containers w !! h) as [rt|]; [|done].
  by destruct (rt_exec_run rt).
Qed.

Lemma execute_command_ok c w command h :
  container c = Some h -> exec_outcome h w = None ->
  execute_command command (c, w) =
    (Ok tt, (c, add_events
       ([EvExecRun h (command_line command); EvLogger "ERROR" save_log_report]
        ++ ((fun ch => EvSend ch (command_echo command w))
              <$> default [] (groups w !! room_group_name c))) w)).
Proof.
  intros Hc Hx. unfold execute_command. unfold try_except at 1.
  bind_step. rewrite (get_container_cached _ _ h Hc).
  bind_step. rewrite exec_run_run, Hx.
  bind_step. rewrite save_log_run.
  unfold get_timestamp. munfold. cbn [fst snd].
  rewrite group_send_run. cbn [fst snd]. by rewrite !add_events_app.
Qed.

Lemma execute_command_exec_fails c w command h e :
  container c = Some h -> exec_outcome h w = Some e ->
  execute_command command (c, w) =
    (Ok tt, (c, add_events
       [EvExecRun h (command_line command);
        EvLogger "ERROR" ("Error executing command: " +:+ exn_str e);
        EvSend (channel_name c)
          (ErrorMsg ("Failed to execute command: " +:+ exn_str e))] w)).
Proof.
  intros Hc Hx. unfold execute_command. unfold try_except at 1.
  bind_step. rewrite (get_container_cached _ _ h Hc).
  bind_step. rewrite exec_run_run, Hx.
  unfold send. munfold. cbn. by rewrite !add_events_app.
Qed.

Lemma execute_command_unresolved c w command :
  container c = None ->
  docker_containers w !! container_name (server_id c) = None ->
  exists c' evs,
    execute_command command (c, w) =
      (Ok tt, (c', add_events
         (evs ++ [EvSend (channel_name c) (ErrorMsg "Server container not found")]) w)) /\
    container c' = None /\ sends evs = [] /\ no_access_check evs.
Proof.
  intros H Hm.
  destruct (get_container_unresolved c w H Hm)
    as (c' & evs & Hrun & Hc & Hl & Hch & Hs & Hq).
  exists c', evs. split; [|done].
  unfold execute_command. unfold try_except at 1.
  bind_step. rewrite Hrun.
  unfold send. munfold. cbn. by rewrite Hch, add_events_app.
Qed.

(** Every run of [execute_command] returns normally, changes the world
    by appending to its trace only, and makes no access check. *)
Lemma execute_command_trace_only c w command :
  exists c' evs,
    execute_command command (c, w) = (Ok tt, (c', add_events evs w)) /\
    no_access_check evs.
Proof.
  destruct (container c) as [h|] eqn:Hc.
  - destruct (exec_outcome h w) as [e|] eqn:Hx.
    + rewrite (execute_command_exec_fails _ _ _ h e) by done.
      eexists _, _. split; [done|]. quiet.
    + rewrite (execute_command_ok _ _ _ h) by done.
      eexists _, _. split; [done|]. quiet.
  - destruct (docker_containers w !! container_name (server_id c)) as [rt|] eqn:Hm.
    + destruct (docker_from_env_error w) as [e|] eqn:He.
      * unfold execute_command. unfold try_except at 1. bind_step.
        rewrite (get_container_env_error _ _ e) by done.
        unfold send. munfold. cbn. rewrite add_events_app.
        eexists _, _. split; [done|]. quiet.
      * unfold execute_command. unfold try_except at 1. bind_step.
        rewrite (get_container_resolved _ _ rt) by done.
        set (c1 := set_container _ _).
        bind_step. rewrite exec_run_run.
        destruct (exec_outcome _ _) as [e|] eqn:Hx.
        -- unfold send. munfold. cbn. rewrite !add_events_app.
           eexists _, _. split; [done|]. quiet.
        -- bind_step. rewrite save_log_run.
           unfold get_timestamp. munfold. cbn [fst snd].
           rewrite group_send_run. cbn [fst snd]. rewrite !add_events_app.
           eexists _, _. split; [done|]. quiet.
    + destruct (execute_command_unresolved c w command Hc Hm)
        as (c' & evs & Hrun & _ & _ & Hq).
      rewrite Hrun. eexists _, _. split; [done|]. quiet.
Qed.

Lemma stream_logs_line_trace_only c w line :
  exists evs, stream_logs_line line (c, w) = (Ok tt, (c, add_events evs w)).
Proof.
  unfold stream_logs_line. case_bool_decide.
  - exists []. by rewrite add_events_nil.
  - bind_step. rewrite save_log_run.
    unfold get_timestamp. munfold. cbn [fst snd].
    rewrite group_send_run. cbn [fst snd]. rewrite !add_events_app. by eexists.
Qed.


(** C6, as amended. A successful resolution is kept on the connection
    and reused: the next [get_container] returns the same handle and does
    nothing else. A later failure of [exec_run] on that handle does not
    clear it: the handle stays, no resolution is made, and the next
    [get_container] returns it again. *)
Theorem get_container_memoizes c w rt :
  container c = None -> docker_from_env_error w = None ->
  docker_containers w !! container_name (server_id c) = Some rt ->
  let h := container_name (server_id c) in
  let s1 := (get_container (c, w)).2 in
  (get_container (c, w)).1 = Ok (Some h) /\
  trace s1.2 = trace w ++ [EvDockerFromEnv; EvContainersGet h] /\
  container s1.1 = Some h /\
  get_container s1 = (Ok (Some h), s1) /\
  (forall e command, rt_exec_run rt = Some e ->
     let s2 := (execute_command command s1).2 in
     container s2.1 = Some h /\
     get_container s2 = (Ok (Some h), s2) /\
     filter (fun ev => is_resolution ev = true) (trace s2.2)
     = filter (fun ev => is_resolution ev = true) (trace s1.2)).
Proof.
  intros Hc He Hm. cbv zeta.
  rewrite (get_container_resolved _ _ rt) by done. cbn [fst snd].
  split; [done|]. split; [done|]. split; [done|].
  split; [by apply get_container_cached|].
  intros e command Hx.
  rewrite (execute_command_exec_fails _ _ command (container_name (server_id c)) e);
    [| done | by unfold exec_outcome; cbn; rewrite Hm].
  cbn [fst snd]. split; [done|]. split; [by apply get_container_cached|].
  cbn. rewrite !filter_app. cbn. by rewrite app_nil_r.
Qed.

(** C3. [save_log] returns normally and leaves the [ServerLog] table as
    it was: the model has no field [level] or [message], the [create]
    call raises [TypeError], and the handler only logs. Hence neither a
    command echo nor a log line is stored. The rows read back have no
    attribute [message] or [level] either, so [get_recent_logs] raises
    as soon as the query selects a row. *)
Theorem save_log_never_persists c w (level message command line : string) :
  (exists w',
     save_log level message (c, w) = (Ok tt, (c, w')) /\
     db_ServerLog w' = db_ServerLog w) /\
  (exists e,
     ServerLog_objects_create
       [("server_id", server_id c); ("level", level); ("message", message)] (c, w)
     = (Raise e, (c, w)) /\ exn_class e = "TypeError") /\
  db_ServerLog (execute_command command (c, w)).2.2 = db_ServerLog w /\
  db_ServerLog (stream_logs_line line (c, w)).2.2 = db_ServerLog w /\
  (forall row,
     ServerLog_getattr row "message"
       = Raise (AttributeError "'ServerLog' object has no attribute 'message'") /\
     ServerLog_getattr row "level"
       = Raise (AttributeError "'ServerLog' object has no attribute 'level'")) /\
  (forall limit k r rs,
     int_of_str (server_id c) = Some k ->
     take limit (order_by_timestamp_desc
       (filter (fun r => ServerLog_server_id r = k) (db_ServerLog w))) = r :: rs ->
     get_recent_logs limit (c, w) =
       (Raise (AttributeError "'ServerLog' object has no attribute 'message'"),
        (c, w))).
Proof.
  split; [|split; [|split; [|split; [|split]]]].
  - rewrite save_log_run. by eexists.
  - rewrite create_rejects_kwargs. by eexists.
  - by destruct (execute_command_trace_only c w command) as (c' & evs & -> & _).
  - by destruct (stream_logs_line_trace_only c w line) as (evs & ->).
  - done.
  - intros limit k r rs Hk Hrows. by rewrite get_recent_logs_run, Hk, Hrows.
Qed.

(** *** Access checks *)

Lemma start_log_stream_no_access_check c w :
  exists c' w' evs,
    start_log_stream (c, w) = (Ok tt, (c', w')) /\
    trace w' = trace w ++ evs /\ no_access_check evs.
Proof.
  destruct (container c) as [h|] eqn:Hc.
  - unfold start_log_stream. unfold try_except at 1. bind_step.
    rewrite (get_container_cached _ _ h Hc).
    eexists _, _, []. split; [reflexivity|]. split; [|quiet].
    cbn. by rewrite app_nil_r.
  - destruct (docker_containers w !! container_name (server_id c)) as [rt|] eqn:Hm.
    + destruct (docker_from_env_error w) as [e|] eqn:He.
      * unfold start_log_stream. unfold try_except at 1. bind_step.
        rewrite (get_container_env_error _ _ e) by done.
        unfold send. munfold. cbn. rewrite add_events_app.
        eexists _, _, _. split; [reflexivity|]. split; [reflexivity|]. quiet.
      * rewrite (start_log_stream_resolved _ _ rt) by done.
        eexists _, _, _. split; [reflexivity|]. split; [reflexivity|]. quiet.
    + destruct (start_log_stream_unresolved c w Hc Hm)
        as (c' & evs & Hrun & _ & _ & _ & Hq).
      rewrite Hrun. eexists _, _, _. split; [reflexivity|]. split; [reflexivity|]. quiet.
Qed.

Lemma run_self_gets {A} (f : t -> A) c w : self_gets f (c, w) = (Ok (f c), (c, w)).
Proof. reflexivity. Qed.

Lemma run_self_modify (f : t -> t) c w : self_modify f (c, w) = (Ok tt, (f c, w)).
Proof. reflexivity. Qed.

Lemma run_close c w :
  close (c, w) = (Ok tt, (c, add_events [EvClose (channel_name c)] w)).
Proof. reflexivity. Qed.

Lemma get_server_run c w :
  get_server (c, w) =
    (match int_of_str (server_id c) with
     | None => Raise (ValueError "Field 'id' expected a number")
     | Some k => Ok (List.find (fun srv => (Server_id srv =? k)%Z) (db_Server w))
     end, (c, w)).
Proof.
  unfold get_server, Server_objects_get. munfold. cbn.
  destruct (int_of_str (server_id c)) as [k|]; [|done].
  cbv [fst snd]. by destruct (List.find _ (db_Server w)).
Qed.

Lemma check_access_run srv user c w :
  check_access srv user (c, w) =
    (match Server_owner srv with
     | Some owner =>
         Ok (User_eq owner user
             || existsb (User_eq_UserProfile user) (Server_owners srv))
     | None => Raise (AttributeError "'Server' object has no attribute 'owner'")
     end,
     (c, add_events [EvCheckAccess (channel_name c) (Server_id srv) (user_pk user)] w)).
Proof.
  unfold check_access, Server_getattr_owner. munfold. cbn.
  by destruct (Server_owner srv).
Qed.

(** A row of [models.py] has no [owner]: the check raises. *)
Lemma check_access_models_py srv user c w :
  Server_owner srv = None ->
  (check_access srv user (c, w)).1
  = Raise (AttributeError "'Server' object has no attribute 'owner'").
Proof. intros H. by rewrite check_access_run, H. Qed.

(** The console [connect] consults the access predicate at most once,
    and accepts only right after a check that returned [True]. *)
Lemma connect_checks_access_once c w :
  exists evs,
    trace (connect (c, w)).2.2 = trace w ++ evs /\
    length (filter (fun e => is_access_check e = true) evs) <= 1 /\
    (filter (fun e => is_accept e = true) evs = [] \/
     exists srv post,
       evs = EvCheckAccess (channel_name c) (Server_id srv) (user_pk (scope_user c))
             :: EvAccept (channel_name c) :: post /\
       no_access_check post).
Proof.
  unfold connect. bind_step. rewrite run_self_modify. cbv beta iota.
  bind_step. rewrite run_self_gets. cbv beta iota.
  destruct (is_authenticated (scope_user (init_attrs c))) eqn:Hauth; cbn [negb].
  2:{ exists [EvClose (channel_name c)]. split; [reflexivity|].
      split; [compute; lia|by left]. }
  bind_step. rewrite get_server_run.
  destruct (int_of_str (server_id (init_attrs c))) as [k|]; cbv beta iota.
  2:{ exists []. cbn. rewrite app_nil_r. split; [reflexivity|]. split; [lia|by left]. }
  destruct (List.find _ (db_Server w)) as [srv|].
  2:{ exists [EvClose (channel_name c)]. split; [reflexivity|].
      split; [compute; lia|by left]. }
  bind_step. rewrite check_access_run.
  destruct (Server_owner srv) as [owner|]; cbv beta iota.
  2:{ eexists [_]. split; [reflexivity|]. split; [compute; lia|by left]. }
  destruct (User_eq owner _ || _); cbn [negb].
  2:{ eexists [_; _]. split; [rewrite run_close; cbn; rewrite <- app_assoc; reflexivity|].
      split; [compute; lia|by left]. }
  bind_step. rewrite run_self_gets. cbv beta iota.
  bind_step. rewrite run_self_gets. cbv beta iota.
  bind_step. unfold group_add at 1, world_modify at 1, modify at 1. cbv beta iota.
  bind_step. unfold accept at 1. bind_step. rewrite run_self_gets. cbv beta iota.
  unfold emit at 1, world_modify at 1, modify at 1. cbv beta iota.
  match goal with |- context [start_log_stream (?c1, ?w1)] =>
    destruct (start_log_stream_no_access_check c1 w1)
      as (c' & w' & post & Hrun & Htr & Hq);
    rewrite Hrun
  end.
  cbn in Htr |- *.
  eexists (_ :: _ :: post). split; [rewrite Htr, <- !app_assoc; reflexivity|].
  split.
  - rewrite filter_cons_True by done. rewrite filter_cons_False by done.
    rewrite (no_access_check_filter _ Hq). cbn. lia.
  - right. by eexists _, _.
Qed.

(** No message handled by [receive] makes an access check. *)
Lemma receive_no_access_check c w (frame : ClientFrame) :
  exists c' evs,
    receive frame (c, w) = (Ok tt, (c', add_events evs w)) /\ no_access_check evs.
Proof.
  unfold receive. unfold try_except at 1. destruct frame as [e | type command].
  - unfold send. munfold. cbn. rewrite add_events_app.
    eexists _, _. split; [reflexivity|]. quiet.
  - case_bool_decide.
    + destruct (execute_command_trace_only c w (default "" command))
        as (c' & evs & -> & Hq). by eexists _, _.
    + case_bool_decide.
      * destruct (send_log_history_sends_nothing c w) as (evs & -> & _ & Hq).
        by eexists _, _.
      * exists c, []. rewrite add_events_nil. split; [reflexivity|]. quiet.
Qed.
End RunEquations.
End ConsoleFacts.

(** ** Runs of the console consumer on the concrete worlds *)

Module ConsoleRuns.
Import Py Env PyStr Django ServerConsoleConsumer EnvFacts ConsoleFacts Scenario.

(** The attach of connection [a] while no container exists. *)
Lemma start_log_stream_not_running_witness :
  exists c' w',
    start_log_stream (conn_a, world_stopped) = (Ok tt, (c', w')) /\
    sends (trace w') =
      sends (trace world_stopped) ++ [("a", InfoMsg "Server is not running")] /\
    tasks w' = tasks world_stopped /\
    log_task c' = None /\ container c' = None /\
    groups w' = groups world_stopped.
Proof.
  apply (start_log_stream_not_running conn_a world_stopped); reflexivity.
Defined.

(** C10 at an attach while the container of server 7 does not exist.
    Alice is authenticated and owns the server through her profile. Her
    console [connect] gets as far as the access check, where
    [server.owner] raises: the exception leaves [connect] before the
    accept, no frame is written, in particular no "Server is not
    running", and no reader is started. *)
Theorem attach_not_running_sends_nothing :
  connect (conn_a, world_stopped) =
    (Raise (AttributeError "'Server' object has no attribute 'owner'"),
     (conn_a, add_events [EvCheckAccess "a" 7 1] world_stopped)) /\
  sends (trace (connect (conn_a, world_stopped)).2.2) = [] /\
  filter (fun e => is_accept e = true) (trace (connect (conn_a, world_stopped)).2.2) = [] /\
  tasks (connect (conn_a, world_stopped)).2.2 = [].
Proof. vm_compute. repeat split; reflexivity. Qed.

(** Two connections attach to server 7 while its container runs: the
    server has two readers. *)
Lemma two_attaches_two_readers :
  length (reader_tasks "7" (attach_all [conn_a; conn_b] world_running).2) = 2 /\
  ~ at_most_one_reader (attach_all [conn_a; conn_b] world_running).2.
Proof.
  assert (H2 : length (reader_tasks "7" (attach_all [conn_a; conn_b] world_running).2) = 2)
    by (vm_compute; reflexivity).
  split; [exact H2|]. intros H. specialize (H "7"). rewrite H2 in H. lia.
Qed.

(** The same two attaches, task by task. *)
Lemma attach_creates_own_reader_witness :
  tasks (attach_all [conn_a; conn_b] world_running).2
  = tasks world_running ++ (reader_task_of <$> [conn_a; conn_b]) /\
  length (reader_tasks "7" (attach_all [conn_a; conn_b] world_running).2)
  = length (reader_tasks "7" world_running) + length [conn_a; conn_b].
Proof.
  apply (attach_creates_own_reader "7" [conn_a; conn_b] world_running running7).
  - repeat constructor.
  - reflexivity.
  - vm_compute. reflexivity.
Defined.



(** Connection [a] holds a handle; the container is gone and [exec_run]
    fails on it. The handle is still set afterwards and the next
    [get_container] returns it without asking the runtime. *)
Lemma failure_keeps_stale_handle :
  let r1 := execute_command "list" (conn_a_cached, world_stopped) in
  let r2 := get_container r1.2 in
  sends (trace r1.2.2)
  = [("a", ErrorMsg "Failed to execute command: No such container: minecraft_server_7")] /\
  container r1.2.1 = Some "minecraft_server_7" /\
  r2.1 = Ok (Some "minecraft_server_7") /\
  filter (fun ev => is_resolution ev = true) (trace r2.2.2) = [].
Proof. vm_compute. repeat split; reflexivity. Qed.

(** The handle resolved on a container whose [exec_run] fails. *)
Lemma get_container_memoizes_witness :
  let h := "minecraft_server_7" in
  let s1 := (get_container (conn_a, world_broken)).2 in
  let s2 := (execute_command "list" s1).2 in
  (get_container (conn_a, world_broken)).1 = Ok (Some h) /\
  get_container s1 = (Ok (Some h), s1) /\
  container s2.1 = Some h /\
  get_container s2 = (Ok (Some h), s2).
Proof.
  destruct (get_container_memoizes conn_a world_broken broken7)
    as (H1 & _ & _ & H2 & H3); [reflexivity | reflexivity | vm_compute; reflexivity |].
  destruct (H3 (mkExn "APIError" "container is not running") "list" eq_refl)
    as (H4 & H5 & _).
  cbv zeta. repeat split; assumption.
Defined.

(** The stored row of server 7 is selected by the history query, and the
    comprehension fails on it. *)
Lemma save_log_never_persists_witness :
  db_ServerLog (save_log "INFO" "hello" (conn_a, world_running)).2.2 = [one_log] /\
  db_ServerLog (execute_command "stop" (conn_a, world_running)).2.2 = [one_log] /\
  get_recent_logs 100 (conn_a, world_running) =
    (Raise (AttributeError "'ServerLog' object has no attribute 'message'"),
     (conn_a, world_running)).
Proof.
  destruct (save_log_never_persists conn_a world_running "INFO" "hello" "stop" "x")
    as ((w' & Hrun & Hdb) & _ & Hcmd & _ & _ & Hget).
  split; [by rewrite Hrun|]. split; [exact Hcmd|].
  apply (Hget 100%nat 7%Z one_log []); vm_compute; reflexivity.
Defined.

(** C4 at a store that holds a row of server 7: the query selects the
    row, yet the history request writes no frame; the only effect is the
    logged [AttributeError]. *)
Theorem history_replay_delivers_nothing :
  (ServerLog_recent "7" 100 (conn_a, world_running)).1 = Ok [one_log] /\
  send_log_history (conn_a, world_running) =
    (Ok tt, (conn_a, add_events
       [EvLogger "ERROR"
          "Error sending log history: 'ServerLog' object has no attribute 'message'"]
       world_running)) /\
  sends (trace (send_log_history (conn_a, world_running)).2.2) = [].
Proof. vm_compute. repeat split; reflexivity. Qed.

End ConsoleRuns.

(** ** The stats sampler *)

Module StatsFacts.
Import Py Env PyStr ServerStatsConsumer EnvFacts.

Ltac case_result H :=
  repeat match type of H with
  | context [match ?x with Ok _ => _ | Raise _ => _ end] =>
      destruct x eqn:?; try discriminate H
  end.

Section Sampler.
Context {F : Type} {PF : PyFloat F}.
Implicit Types (c : t) (w : World F).

Lemma get_server_stats_run c w :
  exists evs,
    get_server_stats (c, w) =
      (Ok (sample_or_offline (fetch_stats (server_id c) w ≫= sample_of_stats)),
       (c, add_events evs w)) /\
    sends evs = [].
Proof.
  unfold get_server_stats, docker_from_env, containers_get, container_stats, fetch_stats.
  munfold. cbn.
  destruct (docker_from_env_error w) as [e|]; cbn.
  { rewrite add_events_app. eexists; split; reflexivity. }
  destruct (docker_containers w !! container_name (server_id c)) as [rt|] eqn:Hm;
    cbn; rewrite ?Hm; cbn.
  2:{ rewrite !add_events_app. eexists; split; reflexivity. }
  destruct (rt_stats rt) as [stats|e]; cbn.
  2:{ rewrite !add_events_app. eexists; split; reflexivity. }
  destruct (sample_of_stats stats); cbn; rewrite ?add_events_app;
    eexists; split; reflexivity.
Qed.

Lemma sample_of_stats_online stats s :
  sample_of_stats stats = Ok s -> online s = true.
Proof.
  unfold sample_of_stats. munfold. intros H. case_result H.
  by injection H as <-.
Qed.

(** C8. A sample with [online = false] has all four numbers equal to the
    integer 0. [get_server_stats] never raises: when resolving the
    container or reading its counters fails, or when a later step of the
    computation fails, it returns exactly that sample, and the tick
    sends it to the client and returns normally. *)
Theorem get_server_stats_degrades c w :
  exists sample w',
    get_server_stats (c, w) = (Ok sample, (c, w')) /\
    (online sample = false ->
       cpu_percent sample = NInt 0 /\ memory_mb sample = NInt 0 /\
       memory_limit_mb sample = NInt 0 /\ memory_percent sample = NInt 0) /\
    (forall e, fetch_stats (server_id c) w = Raise e -> sample = offline_sample) /\
    (forall stats e, fetch_stats (server_id c) w = Ok stats ->
       sample_of_stats stats = Raise e -> sample = offline_sample) /\
    exists w'',
      send_stats_tick (c, w) = (Ok tt, (c, w'')) /\
      sends (trace w'') = sends (trace w) ++ [(channel_name c, StatsMsg sample)].
Proof.
  destruct (get_server_stats_run c w) as (evs & Hrun & Hs).
  eexists _, _. split; [exact Hrun|]. split; [|split; [|split]].
  - destruct (fetch_stats (server_id c) w) as [stats|e]; cbn; [|done].
    destruct (sample_of_stats stats) as [s|e] eqn:Hsample; cbn; [|done].
    by rewrite (sample_of_stats_online _ _ Hsample).
  - by intros e ->.
  - intros stats e -> Hsample. cbn. by rewrite Hsample.
  - unfold send_stats_tick. bind_step. rewrite Hrun.
    unfold send. munfold. cbn. eexists. split; [done|].
    cbn. rewrite !sends_app, Hs. cbn. by rewrite app_nil_r.
Qed.

(** C9. With the four counters read as integers: when the system delta
    is zero or negative, the CPU percentage is the integer 0, no
    division is attempted, and the sample carries 0; when it is
    positive, the percentage is the quotient of the two deltas times
    100, as the float operations compute it. *)
Theorem cpu_percent_guard (stats : PyVal) (cur_total pre_total cur_system pre_system : Z) :
  getitem3 stats "cpu_stats" "cpu_usage" "total_usage" = Ok (PInt cur_total) ->
  getitem3 stats "precpu_stats" "cpu_usage" "total_usage" = Ok (PInt pre_total) ->
  getitem2 stats "cpu_stats" "system_cpu_usage" = Ok (PInt cur_system) ->
  getitem2 stats "precpu_stats" "system_cpu_usage" = Ok (PInt pre_system) ->
  ((cur_system - pre_system <= 0)%Z ->
     calc_cpu_percent stats = Ok (NInt 0) /\
     forall sample, sample_of_stats stats = Ok sample ->
       cpu_percent sample = NInt 0) /\
  ((0 < cur_system - pre_system)%Z ->
     calc_cpu_percent stats =
       (q ← truediv (cur_total - pre_total) (cur_system - pre_system);
        Ok (NFloat (fmul q f100)))).
Proof.
  intros H1 H2 H3 H4.
  assert (Hcalc : calc_cpu_percent stats =
            if (0 <? cur_system - pre_system)%Z
            then q ← truediv (cur_total - pre_total) (cur_system - pre_system);
                 Ok (NFloat (fmul q f100))
            else Ok (NInt 0)).
  { unfold calc_cpu_percent. rewrite H1, H2, H3, H4. reflexivity. }
  split.
  - intros Hle. assert (Hz : calc_cpu_percent stats = Ok (NInt 0)).
    { rewrite Hcalc. by rewrite (proj2 (Z.ltb_ge _ _) Hle). }
    split; [exact Hz|].
    intros sample Hs. unfold sample_of_stats in Hs. rewrite Hz in Hs.
    munfold. case_result Hs. by injection Hs as <-.
  - intros Hlt. rewrite Hcalc. by rewrite (proj2 (Z.ltb_lt _ _) Hlt).
Qed.

(** The stats [connect] consults no access predicate. *)
Lemma stats_connect_run c w :
  is_authenticated (scope_user c) = true ->
  exists c' w',
    connect (c, w) = (Ok tt, (c', w')) /\
    trace w' = trace w ++ [EvAccept (channel_name c)].
Proof.
  intros Hauth. unfold connect, accept, group_add, create_task. munfold. cbn.
  rewrite Hauth. cbn. by eexists _, _.
Qed.

End Sampler.
End StatsFacts.

(** ** Runs of the stats consumer on the concrete worlds *)

Module StatsRuns.
Import Py Env ServerStatsConsumer StatsFacts Scenario QFloat.

(** C7 on the stats endpoint. Mallory is authenticated and has no
    relation to server 7; her connection to its stats is accepted, the
    sampling task is started, and no access check is made. The console
    [connect] makes the check, see [ConsoleFacts.connect_checks_access_once]. *)
Theorem stats_connect_skips_access_check :
  let r := connect (stats_conn, world_running) in
  r.1 = Ok tt /\
  trace r.2.2 = [EvAccept "s"] /\
  filter (fun e => is_access_check e = true) (trace r.2.2) = [] /\
  tasks r.2.2 = [{| task_channel := "s"; task_server_id := "7";
                    task_coro := SendStatsLoop; task_cancelled := false |}].
Proof. vm_compute. repeat split; reflexivity. Qed.

(** A tick while the container of server 7 does not exist. *)
Lemma get_server_stats_degrades_witness :
  fetch_stats "7" world_stopped
    = Raise (mkExn "NotFound" "No such container: minecraft_server_7") /\
  (get_server_stats (init_attrs stats_conn, world_stopped)).1 = Ok offline_sample /\
  sends (trace (send_stats_tick (init_attrs stats_conn, world_stopped)).2.2)
    = [("s", StatsMsg offline_sample)].
Proof.
  assert (Hf : fetch_stats "7" world_stopped
            = Raise (mkExn "NotFound" "No such container: minecraft_server_7"))
    by (vm_compute; reflexivity).
  destruct (get_server_stats_degrades (init_attrs stats_conn) world_stopped)
    as (sample & w' & Hrun & _ & Hfail & _ & w'' & Htick & Hsent).
  rewrite (Hfail _ Hf) in Hrun, Hsent.
  split; [exact Hf|]. split; [by rewrite Hrun|]. by rewrite Htick.
Defined.

(** Counters with a zero system delta, and with a positive one. *)
Lemma cpu_percent_guard_witness :
  calc_cpu_percent (mk_stats 150 100 1000 1000 512 2048) = Ok (NInt 0) /\
  calc_cpu_percent (mk_stats 150 100 1200 1000 512 2048) = Ok (NFloat 25%Q).
Proof.
  split.
  - apply (proj1 (cpu_percent_guard (mk_stats 150 100 1000 1000 512 2048)
                    150 100 1000 1000 eq_refl eq_refl eq_refl eq_refl)).
    lia.
  - rewrite (proj2 (cpu_percent_guard (mk_stats 150 100 1200 1000 512 2048)
                      150 100 1200 1000 eq_refl eq_refl eq_refl eq_refl));
      [vm_compute; reflexivity | lia].
Defined.

End StatsRuns.

(** ** Connecting and disconnecting *)

Module ConnectionFacts.
Import Py Env PyStr Django ServerConsoleConsumer EnvFacts ConsoleFacts.

Section Lifecycle.
Context {F : Type}.
Implicit Types (c : t) (w : World F).

Lemma with_tasks_nil w : with_tasks (fun l => l ++ []) w = w.
Proof. destruct w. unfold with_tasks; cbn. by rewrite app_nil_r. Qed.

(** What [start_log_stream] may change: the trace, at most one new task,
    and the handle and task fields of the connection. *)
Lemma start_log_stream_frame c w :
  exists c' evs ts,
    start_log_stream (c, w) =
      (Ok tt, (c', with_tasks (fun l => l ++ ts) (add_events evs w))) /\
    no_access_check evs /\ length ts <= 1 /\
    channel_name c' = channel_name c /\ room_group_name c' = room_group_name c.
Proof.
  destruct (container c) as [h|] eqn:Hc.
  - unfold start_log_stream. unfold try_except at 1. bind_step.
    rewrite (get_container_cached _ _ h Hc).
    eexists _, [], [_]. rewrite add_events_nil.
    split; [reflexivity|]. split; [quiet|]. split; [cbn; lia|]. by split.
  - destruct (docker_containers w !! container_name (server_id c)) as [rt|] eqn:Hm.
    + destruct (docker_from_env_error w) as [e|] eqn:He.
      * unfold start_log_stream. unfold try_except at 1. bind_step.
        rewrite (get_container_env_error _ _ e) by done.
        unfold send. munfold. cbn. rewrite add_events_app.
        eexists _, _, []. rewrite with_tasks_nil.
        split; [reflexivity|]. split; [quiet|]. split; [cbn; lia|]. by split.
      * rewrite (start_log_stream_resolved _ _ rt) by done.
        eexists _, _, [_]. split; [reflexivity|]. split; [quiet|]. split; [cbn; lia|]. by split.
    + unfold start_log_stream. unfold try_except at 1. bind_step.
      destruct (docker_from_env_error w) as [e|] eqn:He.
      * rewrite (get_container_env_error _ _ e) by done.
        unfold send. munfold. cbn. rewrite add_events_app.
        eexists _, _, []. rewrite with_tasks_nil.
        split; [reflexivity|]. split; [quiet|]. split; [cbn; lia|]. by split.
      * rewrite get_container_not_found by done.
        unfold send. munfold. cbn. rewrite add_events_app.
        eexists _, _, []. rewrite with_tasks_nil.
        split; [reflexivity|]. split; [quiet|]. split; [cbn; lia|]. by split.
Qed.

Lemma existsb_User_eq_UserProfile user (ps : list UserProfile) :
  existsb (User_eq_UserProfile user) ps = false.
Proof. by induction ps. Qed.

(** X1. The console [connect] accepts a connection only when the user
    is authenticated, the server exists and the [owner] of its row is
    that user; the check and the accept are then the first two events
    and the connection has joined the console group of the server. The
    profiles in [server.owners] never grant access. In every other case
    no accept is sent and neither the groups nor the tasks change. *)
Theorem connect_accept_requires_owner c w :
  exists r c' w' evs,
    connect (c, w) = (r, (c', w')) /\
    trace w' = trace w ++ evs /\
    ((is_authenticated (scope_user c) = true /\
      (exists k srv owner,
         int_of_str (scope_server_id c) = Some k /\
         List.find (fun s => (Server_id s =? k)%Z) (db_Server w) = Some srv /\
         Server_owner srv = Some owner /\
         user_pk owner = user_pk (scope_user c) /\
         exists post,
           evs = EvCheckAccess (channel_name c) k (user_pk (scope_user c))
                 :: EvAccept (channel_name c) :: post) /\
      channel_name c ∈ default [] (groups w' !! ("console_" +:+ scope_server_id c)))
     \/
     (filter (fun e => is_accept e = true) evs = [] /\
      groups w' = groups w /\ tasks w' = tasks w)).
Proof.
  unfold connect. bind_step. rewrite run_self_modify. cbv beta iota.
  bind_step. rewrite run_self_gets. cbv beta iota.
  destruct (is_authenticated (scope_user (init_attrs c))) eqn:Hauth; cbn [negb].
  2:{ rewrite run_close. eexists _, _, _, [_].
      split; [reflexivity|]. split; [reflexivity|]. by right. }
  bind_step. rewrite get_server_run.
  change (server_id (init_attrs c)) with (scope_server_id c).
  destruct (int_of_str (scope_server_id c)) as [k|] eqn:Hk; cbv beta iota.
  2:{ eexists _, _, _, []. split; [reflexivity|].
      split; [by rewrite app_nil_r|]. by right. }
  destruct (List.find _ (db_Server w)) as [srv|] eqn:Hfind.
  2:{ rewrite run_close. eexists _, _, _, [_].
      split; [reflexivity|]. split; [reflexivity|]. by right. }
  bind_step. rewrite check_access_run.
  destruct (Server_owner srv) as [owner|] eqn:Howner; cbv beta iota.
  2:{ eexists _, _, _, [_]. split; [reflexivity|]. split; [reflexivity|]. by right. }
  rewrite existsb_User_eq_UserProfile, orb_false_r.
  destruct (User_eq owner _) eqn:Hacc; cbn [negb].
  2:{ rewrite run_close. eexists _, _, _, [_; _]. split; [reflexivity|].
      split; [cbn; by rewrite <- app_assoc|]. by right. }
  bind_step. rewrite run_self_gets. cbv beta iota.
  bind_step. rewrite run_self_gets. cbv beta iota.
  bind_step. unfold group_add at 1, world_modify at 1, modify at 1. cbv beta iota.
  bind_step. unfold accept at 1. bind_step. rewrite run_self_gets. cbv beta iota.
  unfold emit at 1, world_modify at 1, modify at 1. cbv beta iota.
  match goal with |- context [start_log_stream (?c1, ?w1)] =>
    destruct (start_log_stream_frame c1 w1)
      as (c' & post & ts & Hrun & Hq & Hts & Hch & Hroom);
    rewrite Hrun
  end.
  cbn [fst snd].
  eexists _, _, _, (_ :: _ :: post). split; [reflexivity|].
  split; [cbn; by rewrite <- !app_assoc|].
  left. split; [done|]. split.
  - exists k, srv, owner. repeat split; try done.
    + unfold User_eq in Hacc. by apply Z.eqb_eq in Hacc.
    + exists post. repeat f_equal.
      apply find_some in Hfind as [_ Heq]. by apply Z.eqb_eq in Heq.
  - cbn. case_bool_decide as Hin.
    + done.
    + rewrite lookup_insert_eq. cbn. apply elem_of_app. right.
      by apply list_elem_of_singleton.
Qed.

(** With a row that does carry [owner], and the user being that owner,
    the attach to a server without container goes through: the
    connection is accepted, the client gets the info frame "Server is
    not running", no task is created and the connection keeps neither
    handle nor reader. *)
Lemma connect_not_running_with_owner c w k srv owner :
  is_authenticated (scope_user c) = true ->
  int_of_str (scope_server_id c) = Some k ->
  List.find (fun s => (Server_id s =? k)%Z) (db_Server w) = Some srv ->
  Server_owner srv = Some owner ->
  user_pk owner = user_pk (scope_user c) ->
  docker_containers w !! container_name (scope_server_id c) = None ->
  exists c' w' post,
    connect (c, w) = (Ok tt, (c', w')) /\
    trace w' = trace w ++ EvCheckAccess (channel_name c) (Server_id srv)
                            (user_pk (scope_user c))
                          :: EvAccept (channel_name c) :: post /\
    sends post = [(channel_name c, InfoMsg "Server is not running")] /\
    tasks w' = tasks w /\ log_task c' = None /\ container c' = None.
Proof.
  intros Hauth Hk Hfind Howner Hpk Hm.
  unfold connect. bind_step. rewrite run_self_modify. cbv beta iota.
  bind_step. rewrite run_self_gets. cbv beta iota.
  change (scope_user (init_attrs c)) with (scope_user c). rewrite Hauth. cbn [negb].
  bind_step. rewrite get_server_run.
  change (server_id (init_attrs c)) with (scope_server_id c). rewrite Hk, Hfind.
  cbv beta iota. bind_step. rewrite check_access_run, Howner. cbv beta iota.
  rewrite existsb_User_eq_UserProfile, orb_false_r.
  unfold User_eq. rewrite Hpk, Z.eqb_refl. cbn [negb].
  bind_step. rewrite run_self_gets. cbv beta iota.
  bind_step. rewrite run_self_gets. cbv beta iota.
  bind_step. unfold group_add at 1, world_modify at 1, modify at 1. cbv beta iota.
  bind_step. unfold accept at 1. bind_step. rewrite run_self_gets. cbv beta iota.
  unfold emit at 1, world_modify at 1, modify at 1. cbv beta iota.
  match goal with |- context [start_log_stream (?c1, ?w1)] =>
    destruct (start_log_stream_unresolved c1 w1 eq_refl Hm)
      as (c' & evs & Hrun & Hc & Hl & Hs & Hq);
    rewrite Hrun
  end.
  cbn [fst snd]. eexists _, _, _. split; [reflexivity|].
  split; [cbn; by rewrite <- !app_assoc|].
  split; [by rewrite sends_app, Hs|]. by repeat split.
Qed.

(** X2. With the [Server] rows of [models.py], the console [connect] of
    an authenticated user to an existing server ends in the
    [AttributeError] of [server.owner]: the access check is the only
    event, and the connection is neither accepted nor closed, joins no
    group and starts no reader. *)
Theorem connect_models_py_raises c w k srv :
  is_authenticated (scope_user c) = true ->
  int_of_str (scope_server_id c) = Some k ->
  List.find (fun s => (Server_id s =? k)%Z) (db_Server w) = Some srv ->
  models_py_rows w ->
  connect (c, w) =
    (Raise (AttributeError "'Server' object has no attribute 'owner'"),
     (init_attrs c,
      add_events [EvCheckAccess (channel_name c) (Server_id srv)
                    (user_pk (scope_user c))] w)).
Proof.
  intros Hauth Hk Hfind Hrows.
  assert (Howner : Server_owner srv = None).
  { apply find_some in Hfind as [Hin _].
    unfold models_py_rows in Hrows. rewrite List.Forall_forall in Hrows. by apply Hrows. }
  unfold connect. bind_step. rewrite run_self_modify. cbv beta iota.
  bind_step. rewrite run_self_gets. cbv beta iota.
  change (scope_user (init_attrs c)) with (scope_user c). rewrite Hauth. cbn [negb].
  bind_step. rewrite get_server_run.
  change (server_id (init_attrs c)) with (scope_server_id c). rewrite Hk, Hfind.
  cbv beta iota. bind_step. rewrite check_access_run, Howner. reflexivity.
Qed.

Lemma disconnect_run c w :
  disconnect (c, w) =
    (Ok tt,
     (c, with_groups (fun g =>
           match g !! room_group_name c with
           | Some members =>
               <[room_group_name c := filter (fun x => x ≠ channel_name c) members]> g
           | None => g
           end)
          (match log_task c with
           | Some n =>
               with_tasks (fun ts =>
                 match ts !! n with
                 | Some t => <[n := cancelled t]> ts
                 | None => ts
                 end) w
           | None => w
           end))).
Proof.
  unfold disconnect, cancel_task, group_discard. munfold. cbn.
  by destruct (log_task c).
Qed.

(** X3. A connection that started its reader and then disconnects
    leaves that reader cancelled: the task is still listed, marked
    cancelled, and the server has the same live readers as before the
    attach. *)
Theorem attach_then_disconnect_cancels_reader c w rt :
  container c = None -> docker_from_env_error w = None ->
  docker_containers w !! container_name (server_id c) = Some rt ->
  let s1 := (start_log_stream (c, w)).2 in
  let s2 := (disconnect s1).2 in
  tasks s1.2 = tasks w ++ [reader_task_of c] /\
  tasks s2.2 = tasks w ++ [cancelled (reader_task_of c)] /\
  reader_tasks (server_id c) s2.2 = reader_tasks (server_id c) w.
Proof.
  intros Hc He Hm. cbv zeta.
  rewrite (start_log_stream_resolved c w rt) by done. cbn [fst snd].
  split; [done|].
  rewrite disconnect_run. cbn [fst snd]. cbn [log_task set_log_task].
  assert (Ht : tasks (with_tasks (fun ts => match ts !! length (tasks w) with
                                   | Some t => <[length (tasks w) := cancelled t]> ts
                                   | None => ts end)
                (with_tasks (fun ts => ts ++ [reader_task_of c])
                   (add_events [EvDockerFromEnv; EvContainersGet (container_name (server_id c))] w)))
             = tasks w ++ [cancelled (reader_task_of c)]).
  { cbn. rewrite list_lookup_middle by done.
    rewrite insert_app_r_alt by lia. by rewrite Nat.sub_diag. }
  split.
  - exact Ht.
  - unfold reader_tasks. cbn [tasks with_groups]. rewrite Ht.
    rewrite filter_app. rewrite filter_cons_False, filter_nil, app_nil_r; [done|].
    unfold is_reader_of, cancelled. cbn. rewrite andb_false_r. done.
Qed.

(** X4. [disconnect] returns normally, writes nothing to the trace,
    removes the connection from the console group of its server, keeps
    every other member of that group and leaves the other groups as
    they were. *)
Theorem disconnect_leaves_group c w :
  exists w',
    disconnect (c, w) = (Ok tt, (c, w')) /\
    trace w' = trace w /\
    (channel_name c ∉ default [] (groups w' !! room_group_name c)) /\
    (forall ch, ch ≠ channel_name c ->
       (ch ∈ default [] (groups w' !! room_group_name c)
        <-> ch ∈ default [] (groups w !! room_group_name c))) /\
    (forall g, g ≠ room_group_name c -> groups w' !! g = groups w !! g).
Proof.
  rewrite disconnect_run. eexists. split; [reflexivity|].
  assert (Hg : forall w0, groups (match log_task c with
            | Some n => with_tasks (fun ts => match ts !! n with
                 | Some t => <[n := cancelled t]> ts | None => ts end) w0
            | None => w0 end) = groups w0) by (intros w0; by destruct (log_task c)).
  assert (Htr : forall w0, trace (match log_task c with
            | Some n => with_tasks (fun ts => match ts !! n with
                 | Some t => <[n := cancelled t]> ts | None => ts end) w0
            | None => w0 end) = trace w0) by (intros w0; by destruct (log_task c)).
  cbn [groups with_groups trace]. rewrite Hg, Htr. split; [done|].
  destruct (groups w !! room_group_name c) as [members|] eqn:Hm.
  - rewrite lookup_insert_eq. cbn. split; [|split].
    + rewrite list_elem_of_filter. intros [H _]. by apply H.
    + intros ch Hne. rewrite list_elem_of_filter.
      split; [by intros [_ ?] | by intros ?; split].
    + intros g Hne. by rewrite lookup_insert_ne.
  - rewrite Hm. cbn. split; [|split]; try done. apply not_elem_of_nil.
Qed.

(** X5. A resolution that found no container is not remembered: once
    the container exists, the next [get_container] of the same
    connection asks the runtime again and returns the handle. *)
Theorem get_container_retries_after_failure c w w2 rt :
  container c = None ->
  docker_containers w !! container_name (server_id c) = None ->
  docker_from_env_error w2 = None ->
  docker_containers w2 !! container_name (server_id c) = Some rt ->
  let c1 := (get_container (c, w)).2.1 in
  (get_container (c, w)).1 = Ok None /\
  (get_container (c1, w2)).1 = Ok (Some (container_name (server_id c))) /\
  filter (fun e => is_resolution e = true) (trace (get_container (c1, w2)).2.2)
  = filter (fun e => is_resolution e = true) (trace w2)
    ++ [EvDockerFromEnv; EvContainersGet (container_name (server_id c))].
Proof.
  intros Hc Hm He2 Hm2. cbv zeta.
  assert (H : exists c1 w1, get_container (c, w) = (Ok None, (c1, w1)) /\
                container c1 = None /\ server_id c1 = server_id c).
  { destruct (docker_from_env_error w) as [e|] eqn:He.
    - rewrite (get_container_env_error _ _ e) by done. by eexists _, _.
    - rewrite get_container_not_found by done. by eexists _, _. }
  destruct H as (c1 & w1 & Hrun & Hc1 & Hsid). rewrite Hrun. cbn [fst snd].
  split; [done|].
  rewrite (get_container_resolved c1 w2 rt) by (by rewrite ?Hsid).
  rewrite Hsid. cbn. split; [done|]. by rewrite filter_app.
Qed.

End Lifecycle.
End ConnectionFacts.

(** ** Messages of the client *)

Module MessageFacts.
Import Py Env PyStr Django ServerConsoleConsumer EnvFacts ConsoleFacts.

Section Messages.
Context {F : Type}.
Implicit Types (c : t) (w : World F).

Lemma same_identity_refl c : same_identity c c.
Proof. by repeat split. Qed.

Lemma same_identity_trans c1 c2 c3 :
  same_identity c1 c2 -> same_identity c2 c3 -> same_identity c1 c3.
Proof. unfold same_identity. intros (?&?&?&?) (?&?&?&?). repeat split; congruence. Qed.

Lemma filter_exec_sends (members : list string) (m : WsMessage F) :
  filter (fun e => is_exec_run e = true) ((fun ch => EvSend ch m) <$> members) = [].
Proof.
  induction members as [|ch l IH]; [done|]. cbn [fmap list_fmap].
  rewrite filter_cons_False; [exact IH | by cbn].
Qed.

Lemma execute_command_frame c w command :
  exists c' evs,
    execute_command command (c, w) = (Ok tt, (c', add_events evs w)) /\
    same_identity c c' /\ no_access_check evs /\
    command_outcome c w command evs.
Proof.
  destruct (container c) as [h|] eqn:Hc.
  - destruct (exec_outcome h w) as [e|] eqn:Hx.
    + rewrite (execute_command_exec_fails _ _ _ h e) by done.
      eexists _, _. split; [done|]. split; [apply same_identity_refl|].
      split; [quiet|]. right. eexists. split; [reflexivity|]. vm_compute. lia.
    + rewrite (execute_command_ok _ _ _ h) by done.
      eexists _, _. split; [done|]. split; [apply same_identity_refl|].
      split; [quiet|]. left. split.
      * rewrite sends_app. cbn. by rewrite sends_group.
      * rewrite filter_app, filter_exec_sends. by vm_compute.
  - destruct (docker_containers w !! container_name (server_id c)) as [rt|] eqn:Hm.
    + destruct (docker_from_env_error w) as [e|] eqn:He.
      * unfold execute_command. unfold try_except at 1. bind_step.
        rewrite (get_container_env_error _ _ e) by done.
        unfold send. munfold. cbn. rewrite add_events_app.
        eexists _, _. split; [done|]. split; [apply same_identity_refl|].
        split; [quiet|]. right. eexists. split; [reflexivity|]. vm_compute. lia.
      * unfold execute_command. unfold try_except at 1. bind_step.
        rewrite (get_container_resolved _ _ rt) by done.
        set (c1 := set_container _ _).
        bind_step. rewrite exec_run_run.
        destruct (exec_outcome _ _) as [e|] eqn:Hx.
        -- unfold send. munfold. cbn. rewrite !add_events_app.
           eexists _, _. split; [done|]. split; [by repeat split|].
           split; [quiet|]. right. eexists. split; [reflexivity|]. vm_compute. lia.
        -- bind_step. rewrite save_log_run.
           unfold get_timestamp. munfold. cbn [fst snd].
           rewrite group_send_run. cbn [fst snd]. rewrite !add_events_app.
           eexists _, _. split; [done|]. split; [by repeat split|].
           split; [quiet|]. left. split.
           ++ rewrite !sends_app. cbn. by rewrite sends_group.
           ++ rewrite !filter_app, filter_exec_sends. by vm_compute.
    + unfold execute_command. unfold try_except at 1. bind_step.
      destruct (docker_from_env_error w) as [e|] eqn:He.
      * rewrite (get_container_env_error _ _ e) by done.
        unfold send. munfold. cbn. rewrite add_events_app.
        eexists _, _. split; [done|]. split; [apply same_identity_refl|].
        split; [quiet|]. right. eexists. split; [reflexivity|]. vm_compute. lia.
      * rewrite get_container_not_found by done.
        unfold send. munfold. cbn. rewrite add_events_app.
        eexists _, _. split; [done|]. split; [by repeat split|].
        split; [quiet|]. right. eexists. split; [reflexivity|]. vm_compute. lia.
Qed.

(** X6. Every command returns normally and changes the world through
    its trace only. It ends in one of two ways: [exec_run] was called
    once and the echo went to every member of the console group, or a
    single error frame went to the submitter alone, after at most one
    call of [exec_run]. *)
Theorem execute_command_echo_or_error c w command :
  exists c' evs,
    execute_command command (c, w) = (Ok tt, (c', add_events evs w)) /\
    command_outcome c w command evs.
Proof.
  destruct (execute_command_frame c w command) as (c' & evs & Hrun & _ & _ & Hout).
  by exists c', evs.
Qed.

Lemma receive_frame c w (frame : ClientFrame) :
  exists c' evs,
    receive frame (c, w) = (Ok tt, (c', add_events evs w)) /\
    same_identity c c' /\ no_access_check evs.
Proof.
  unfold receive. unfold try_except at 1. destruct frame as [e | type command].
  - unfold send. munfold. cbn. rewrite add_events_app.
    eexists _, _. split; [reflexivity|]. split; [apply same_identity_refl|]. quiet.
  - case_bool_decide.
    + destruct (execute_command_frame c w (default "" command))
        as (c' & evs & -> & Hid & Hq & _). by eexists _, _.
    + case_bool_decide.
      * destruct (send_log_history_sends_nothing c w) as (evs & -> & _ & Hq).
        eexists _, _. split; [reflexivity|]. split; [apply same_identity_refl|]. done.
      * exists c, []. rewrite add_events_nil. split; [reflexivity|].
        split; [apply same_identity_refl|]. quiet.
Qed.

(** X7. [receive] on the edges of its input: a frame that is not JSON
    is answered with one error frame carrying the text of the exception;
    a frame of an unknown type is ignored without any effect; a command
    frame runs [execute_command] on the command, the empty string when
    the key is missing; a history frame runs [send_log_history]. *)
Theorem receive_edge_cases c w :
  (forall e,
     receive (BadFrame e) (c, w) =
       (Ok tt, (c, add_events
          [EvLogger "ERROR" ("Error in receive: " +:+ exn_str e);
           EvSend (channel_name c) (ErrorMsg (exn_str e))] w))) /\
  (forall type command,
     type ≠ Some "command" -> type ≠ Some "get_history" ->
     receive (Frame type command) (c, w) = (Ok tt, (c, w))) /\
  (forall command,
     receive (Frame (Some "command") command) (c, w)
     = execute_command (default "" command) (c, w)) /\
  (forall command,
     receive (Frame (Some "get_history") command) (c, w) = send_log_history (c, w)).
Proof.
  split; [|split; [|split]].
  - intros e. unfold receive, send. munfold. cbn. by rewrite add_events_app.
  - intros type command H1 H2. unfold receive. unfold try_except.
    rewrite bool_decide_eq_false_2 by done. by rewrite bool_decide_eq_false_2 by done.
  - intros command. unfold receive. unfold try_except at 1.
    rewrite bool_decide_eq_true_2 by done.
    by destruct (execute_command_frame c w (default "" command)) as (c' & evs & -> & _).
  - intros command. unfold receive. unfold try_except at 1.
    rewrite bool_decide_eq_false_2 by done. rewrite bool_decide_eq_true_2 by done.
    by destruct (send_log_history_sends_nothing c w) as (evs & -> & _).
Qed.

(** X8. No sequence of client frames starts a log stream: handling them
    returns normally, changes the world through its trace only, leaves
    the reader of the connection as it was and makes no access check. A
    connection that attached while its container was absent therefore
    stays without reader whatever it sends. *)
Theorem receive_all_never_starts_reader (frames : list ClientFrame) c w :
  exists c' evs,
    receive_all frames (c, w) = (Ok tt, (c', add_events evs w)) /\
    log_task c' = log_task c /\ no_access_check evs.
Proof.
  assert (H : exists c' evs,
    receive_all frames (c, w) = (Ok tt, (c', add_events evs w)) /\
    same_identity c c' /\ no_access_check evs).
  { revert c w. induction frames as [|fr frames IH]; intros c w.
    - exists c, []. rewrite add_events_nil. split; [reflexivity|].
      split; [apply same_identity_refl|]. quiet.
    - unfold receive_all. cbn [for_each]. bind_step.
      destruct (receive_frame c w fr) as (c1 & evs1 & -> & Hid1 & Hq1).
      fold (@receive_all F frames).
      destruct (IH c1 (add_events evs1 w)) as (c2 & evs2 & -> & Hid2 & Hq2).
      rewrite add_events_app. eexists _, _. split; [reflexivity|].
      split; [by eapply same_identity_trans|]. quiet. }
  destruct H as (c' & evs & Hrun & (_ & _ & _ & Hl) & Hq). by exists c', evs.
Qed.

End Messages.
End MessageFacts.

(** ** The log reader *)

Module StreamFacts.
Import Py Env PyStr Django ServerConsoleConsumer EnvFacts ConsoleFacts.

Lemma lstrip_all_space (s : string) : all_space s = true -> lstrip s = "".
Proof.
  induction s as [|a s IH]; [done|]. cbn. intros [Ha Hs]%andb_true_iff.
  rewrite Ha. by apply IH.
Qed.

Lemma rstrip_empty (s : string) : rstrip s = "" -> all_space s = true.
Proof.
  induction s as [|a s IH]; [done|]. cbn.
  destruct (rstrip s) as [|b r]; [|done].
  destruct (is_space a); [|done]. intros _. by apply IH.
Qed.

Lemma lstrip_head (s : string) a r : lstrip s = String a r -> is_space a = false.
Proof.
  induction s as [|b s IH]; [done|]. cbn.
  destruct (is_space b) eqn:Hb; [exact IH|]. intros [= <- _]. exact Hb.
Qed.

Lemma lstrip_empty (s : string) : lstrip s = "" -> all_space s = true.
Proof.
  induction s as [|b s IH]; [done|]. cbn.
  destruct (is_space b); [exact IH | done].
Qed.

(** A line is blank for [strip] exactly when it is made of white space. *)
Lemma strip_empty_iff (s : string) : strip s = "" <-> all_space s = true.
Proof.
  unfold strip. split.
  - intros H. apply rstrip_empty in H.
    destruct (lstrip s) as [|a r] eqn:Hl.
    + by apply lstrip_empty.
    + apply lstrip_head in Hl. cbn in H. by rewrite Hl in H.
  - intros H. by rewrite lstrip_all_space.
Qed.

Section Stream.
Context {F : Type}.
Implicit Types (c : t) (w : World F).

Lemma stream_logs_line_run c w line :
  exists evs,
    stream_logs_line line (c, w) = (Ok tt, (c, add_events evs w)) /\
    sends evs = line_frames (room_group_name c) w line.
Proof.
  unfold stream_logs_line, line_frames. case_bool_decide.
  - exists []. by rewrite add_events_nil.
  - bind_step. rewrite save_log_run.
    unfold get_timestamp. munfold. cbn [fst snd].
    rewrite group_send_run. cbn [fst snd]. rewrite !add_events_app.
    eexists. split; [reflexivity|]. rewrite sends_app. cbn. by rewrite sends_group.
Qed.

(** X9. On a line of ASCII text: the reader skips a line made of white
    space only, with no effect at all; any other line is broadcast to
    every member of the group, stripped of the white space around it
    and with the level the classifier gives to the stripped text. *)
Theorem stream_logs_line_blank c w line :
  is_ascii line = true ->
  (all_space line = true -> stream_logs_line line (c, w) = (Ok tt, (c, w))) /\
  (all_space line = false ->
     strip line ≠ "" /\
     exists evs,
       stream_logs_line line (c, w) = (Ok tt, (c, add_events evs w)) /\
       sends evs =
         (fun ch => (ch, LogMsg (AStr (strip line))
                           (AStr (Classifier.parse_log_level (strip line)))
                           (AIso (now w))))
           <$> default [] (groups w !! room_group_name c)).
Proof.
  intros _. split.
  - intros H. apply strip_empty_iff in H. unfold stream_logs_line.
    by rewrite bool_decide_eq_true_2.
  - intros H. assert (Hne : strip line ≠ "").
    { intros Hs. apply strip_empty_iff in Hs. congruence. }
    split; [done|]. destruct (stream_logs_line_run c w line) as (evs & Hrun & Hs).
    exists evs. split; [done|]. rewrite Hs. unfold line_frames.
    by rewrite bool_decide_eq_false_2.
Qed.

Lemma log_task_cancelled_run c w n task :
  log_task c = Some n -> tasks w !! n = Some task ->
  log_task_cancelled (c, w) = (Ok false, (c, w)).
Proof.
  intros Hl Ht. unfold log_task_cancelled. munfold. cbn. rewrite Hl. cbn. by rewrite Ht.
Qed.

(** ASCII bytes always decode. *)
Lemma decode_utf8_ascii (b : string) : is_ascii b = true -> decode_utf8 b = Ok b.
Proof.
  intros H. unfold decode_utf8.
  assert (Hv : utf8_valid b = true); [|by rewrite Hv].
  induction b as [|x b IH]; [done|].
  cbn [is_ascii] in H. apply andb_true_iff in H as [Hx Hb].
  cbn [utf8_valid]. cbv zeta. rewrite Hx. by apply IH.
Qed.

Lemma stream_logs_loop_live (lines : list string) c w n task :
  log_task c = Some n -> tasks w !! n = Some task ->
  Forall (fun l => is_ascii l = true) lines ->
  exists evs,
    stream_logs_loop lines (c, w) = (Ok tt, (c, add_events evs w)) /\
    sends evs = flat_map (line_frames (room_group_name c) w) lines.
Proof.
  intros Hl Ht Hascii. revert w Ht.
  induction Hascii as [|l lines Hline _ IH]; intros w Ht.
  - exists []. by rewrite add_events_nil.
  - cbn [stream_logs_loop]. bind_step.
    rewrite (log_task_cancelled_run c w n task Hl Ht).
    bind_step. unfold lift at 1. rewrite (decode_utf8_ascii l Hline).
    bind_step. destruct (stream_logs_line_run c w l) as (evs1 & -> & Hs1).
    destruct (IH (add_events evs1 w) Ht) as (evs2 & -> & Hs2).
    rewrite add_events_app. eexists. split; [reflexivity|].
    rewrite sends_app, Hs1, Hs2. reflexivity.
Qed.

Lemma container_logs_run h c w :
  container_logs h (c, w) =
    (match docker_containers w !! h with
     | Some _ => Ok tt
     | None => Raise (NotFound h)
     end, (c, add_events [EvLogs h] w)).
Proof.
  unfold container_logs. munfold. cbn. by destruct (docker_containers w !! h).
Qed.

(** X10. While no cancel of its task has been requested and the
    container exists, the reader delivers lines of ASCII text in the
    order the runtime produced them: the frames written are those of
    the first line to every member of the group, then those of the
    second, and so on. *)
Theorem stream_logs_fanout_in_order (h : string) (lines : list string) c w n task :
  log_task c = Some n -> tasks w !! n = Some task -> task_cancelled task = false ->
  is_Some (docker_containers w !! h) ->
  Forall (fun l => is_ascii l = true) lines ->
  exists evs,
    stream_logs h lines (c, w) = (Ok tt, (c, add_events evs w)) /\
    sends evs = flat_map (line_frames (room_group_name c) w) lines.
Proof.
  intros Hl Ht _ [rt Hm] Hascii. unfold stream_logs, try_except.
  bind_step. rewrite container_logs_run, Hm.
  destruct (stream_logs_loop_live lines c (add_events [EvLogs h] w) n task Hl Ht Hascii)
    as (evs & -> & Hs).
  rewrite add_events_app. eexists. split; [reflexivity|].
  by rewrite sends_app.
Qed.

End Stream.
End StreamFacts.

(** ** Letter case in the classifier *)

Module CaseFacts.
Import PyStr Classifier ClassifierFacts.

Lemma upper_app (a b : string) : upper (a +:+ b) = upper a +:+ upper b.
Proof.
  induction a as [|x a IH]; [done|].
  rewrite app_String. cbn [upper]. by rewrite IH, app_String.
Qed.

Lemma upper_char_idemp (c : ascii) : upper_char (upper_char c) = upper_char c.
Proof. destruct c as [[] [] [] [] [] [] [] []]; reflexivity. Qed.

Lemma upper_idemp (s : string) : upper (upper s) = upper s.
Proof. induction s as [|x s IH]; [done|]. cbn. by rewrite upper_char_idemp, IH. Qed.

Lemma upper_substring (m line : string) :
  Substring m line -> Substring (upper m) (upper line).
Proof.
  intros [pre [post ->]]. exists (upper pre), (upper post).
  by rewrite !upper_app.
Qed.

(** X12. The classifier ignores the letter case: a line that contains
    "error" or "severe" in any mix of cases is ERROR, one that contains
    "warn" in any mix of cases is ERROR or WARN, and a line classifies as
    its upper-cased form does. The level is always one of ERROR, WARN,
    DEBUG, SUCCESS and INFO. *)
Theorem parse_log_level_any_case (m line : string) :
  Substring m line ->
  (upper m = "ERROR" \/ upper m = "SEVERE" -> parse_log_level line = "ERROR") /\
  (upper m = "WARN" ->
     parse_log_level line = "ERROR" \/ parse_log_level line = "WARN") /\
  parse_log_level (upper line) = parse_log_level line /\
  parse_log_level line ∈ ["ERROR"; "WARN"; "DEBUG"; "SUCCESS"; "INFO"].
Proof.
  intros Hsub. apply upper_substring in Hsub.
  unfold parse_log_level, parse_log_level_with. rewrite upper_idemp.
  split; [|split; [|split]].
  - intros [Hm | Hm]; rewrite Hm in Hsub; apply str_in_spec in Hsub; rewrite Hsub;
      [done | by rewrite orb_true_r].
  - intros Hm. rewrite Hm in Hsub. apply str_in_spec in Hsub. rewrite Hsub.
    destruct (_ || _); [by left | by right].
  - done.
  - repeat (match goal with |- context [if ?b then _ else _] => destruct b end);
      repeat (first [apply list_elem_of_here | apply list_elem_of_further]).
Qed.

End CaseFacts.

(** ** The history query *)

Module QueryFacts.
Import Py Env PyStr Django.

Lemma insert_desc_perm r l : insert_desc r l ≡ₚ r :: l.
Proof.
  induction l as [|x l IH]; [done|]. cbn.
  destruct (_ <=? _)%Z; [done|]. rewrite IH. apply Permutation_swap.
Qed.

Lemma insert_desc_sorted r l :
  StronglySorted newer_first l -> StronglySorted newer_first (insert_desc r l).
Proof.
  induction 1 as [|x l Hl IH Hx]; cbn.
  - by repeat constructor.
  - destruct (ServerLog_timestamp x <=? ServerLog_timestamp r)%Z eqn:Hle.
    + apply Z.leb_le in Hle. constructor; [by constructor|].
      constructor; [exact Hle|].
      eapply Forall_impl; [exact Hx|]. unfold newer_first. intros y Hy. lia.
    + apply Z.leb_gt in Hle. constructor; [exact IH|].
      rewrite insert_desc_perm. constructor; [unfold newer_first; lia | exact Hx].
Qed.

Lemma order_by_perm l : order_by_timestamp_desc l ≡ₚ l.
Proof.
  induction l as [|x l IH]; [done|]. cbn.
  by rewrite insert_desc_perm, IH.
Qed.

Lemma order_by_sorted l : StronglySorted newer_first (order_by_timestamp_desc l).
Proof.
  induction l as [|x l IH]; [constructor|]. cbn. by apply insert_desc_sorted.
Qed.

Section Query.
Context {F Self : Type}.

(** X13. The query of [get_recent_logs] selects rows of the connection's
    server only, at most [limit] of them, latest first, and they are the
    latest ones: together with the rows left out they are the rows of
    that server, and no row left out is newer than a selected one. *)
Theorem history_query_latest_first (sid : string) (limit : nat) (k : Z)
    (c : Self) (w : World F) :
  int_of_str sid = Some k ->
  exists rows rest,
    ServerLog_recent sid limit (c, w) = (Ok rows, (c, w)) /\
    length rows = min limit (length (filter (fun r => ServerLog_server_id r = k)
                                       (db_ServerLog w))) /\
    rows ++ rest ≡ₚ filter (fun r => ServerLog_server_id r = k) (db_ServerLog w) /\
    StronglySorted newer_first (rows ++ rest).
Proof.
  intros Hk. unfold ServerLog_recent. rewrite Hk. munfold. cbn.
  set (sorted := order_by_timestamp_desc _).
  exists (take limit sorted), (drop limit sorted). split; [reflexivity|].
  split; [|split].
  - rewrite length_take. unfold sorted. by rewrite order_by_perm.
  - rewrite take_drop. apply order_by_perm.
  - rewrite take_drop. apply order_by_sorted.
Qed.
End Query.
End QueryFacts.

(** ** The sampling loop *)

Module SamplerFacts.
Import Py Env PyStr ServerStatsConsumer EnvFacts StatsFacts.

Section Sampler.
Context {F : Type} {PF : PyFloat F}.
Implicit Types (c : t) (w : World F).

Lemma get_server_stats_resolves c w :
  exists evs,
    get_server_stats (c, w) = (Ok (sample_in c w), (c, add_events evs w)) /\
    sends evs = [] /\
    filter (fun e => is_docker_from_env e = true) evs = [EvDockerFromEnv].
Proof.
  unfold sample_in.
  unfold get_server_stats, docker_from_env, containers_get, container_stats, fetch_stats.
  munfold. cbn.
  destruct (docker_from_env_error w) as [e|]; cbn.
  { rewrite add_events_app. eexists; repeat split; reflexivity. }
  destruct (docker_containers w !! container_name (server_id c)) as [rt|] eqn:Hm;
    cbn; rewrite ?Hm; cbn.
  2:{ rewrite !add_events_app. eexists; repeat split; reflexivity. }
  destruct (rt_stats rt) as [stats|e]; cbn.
  2:{ rewrite !add_events_app. eexists; repeat split; reflexivity. }
  destruct (sample_of_stats stats); cbn; rewrite ?add_events_app;
    eexists; repeat split; reflexivity.
Qed.

Lemma send_stats_tick_run c w :
  exists evs,
    send_stats_tick (c, w) = (Ok tt, (c, add_events evs w)) /\
    sends evs = [(channel_name c, StatsMsg (sample_in c w))] /\
    filter (fun e => is_docker_from_env e = true) evs = [EvDockerFromEnv].
Proof.
  destruct (get_server_stats_resolves c w) as (evs & Hrun & Hs & Hd).
  unfold send_stats_tick. bind_step. rewrite Hrun.
  unfold send. munfold. cbn. rewrite add_events_app.
  eexists. split; [reflexivity|]. split.
  - rewrite sends_app, Hs. done.
  - rewrite filter_app, Hd. done.
Qed.

(** X14. The stats loop never raises. Its first [ticks] iterations write
    exactly [ticks] frames, all to the connection's own socket and none
    to its group, each carrying the sample of the current runtime state;
    every iteration resolves the container anew, with one call of
    [docker.from_env] per tick. *)
Theorem send_stats_loop_frames (ticks : nat) c w :
  exists evs,
    send_stats_loop ticks (c, w) = (Ok tt, (c, add_events evs w)) /\
    sends evs = replicate ticks (channel_name c, StatsMsg (sample_in c w)) /\
    length (filter (fun e => is_docker_from_env e = true) evs) = ticks.
Proof.
  unfold send_stats_loop, try_except.
  assert (H : exists evs,
    send_stats_iter ticks (c, w) = (Ok tt, (c, add_events evs w)) /\
    sends evs = replicate ticks (channel_name c, StatsMsg (sample_in c w)) /\
    length (filter (fun e => is_docker_from_env e = true) evs) = ticks).
  { revert w. induction ticks as [|n IH]; intros w.
    - exists []. by rewrite add_events_nil.
    - cbn [send_stats_iter]. bind_step.
      destruct (send_stats_tick_run c w) as (evs1 & -> & Hs1 & Hd1).
      destruct (IH (add_events evs1 w)) as (evs2 & -> & Hs2 & Hd2).
      rewrite add_events_app. eexists. split; [reflexivity|]. split.
      + rewrite sends_app, Hs1, Hs2. reflexivity.
      + rewrite filter_app, length_app, Hd1, Hd2. reflexivity. }
  destruct H as (evs & -> & Hs & Hd). by exists evs.
Qed.

Lemma py_sub_inv a b z : py_sub a b = Ok z -> exists x y, a = PInt x /\ b = PInt y.
Proof. destruct a, b; try done. by eexists _, _. Qed.

Lemma as_int_inv a z : as_int a = Ok z -> a = PInt z.
Proof. destruct a; try done. by intros [= ->]. Qed.

Lemma sample_of_stats_inv stats s :
  sample_of_stats stats = Ok s ->
  exists a b cs ds u l,
    getitem3 stats "cpu_stats" "cpu_usage" "total_usage" = Ok (PInt a) /\
    getitem3 stats "precpu_stats" "cpu_usage" "total_usage" = Ok (PInt b) /\
    getitem2 stats "cpu_stats" "system_cpu_usage" = Ok (PInt cs) /\
    getitem2 stats "precpu_stats" "system_cpu_usage" = Ok (PInt ds) /\
    getitem2 stats "memory_stats" "usage" = Ok (PInt u) /\
    getitem2 stats "memory_stats" "limit" = Ok (PInt l) /\
    l ≠ 0%Z /\ online s = true.
Proof.
  unfold sample_of_stats, calc_cpu_percent. munfold. intros H.
  destruct (getitem3 stats "cpu_stats" "cpu_usage" "total_usage") as [v1|]; [|done].
  destruct (getitem3 stats "precpu_stats" "cpu_usage" "total_usage") as [v2|]; [|done].
  destruct (py_sub v1 v2) as [d1|] eqn:H12; [|done].
  destruct (getitem2 stats "cpu_stats" "system_cpu_usage") as [v3|]; [|done].
  destruct (getitem2 stats "precpu_stats" "system_cpu_usage") as [v4|]; [|done].
  destruct (py_sub v3 v4) as [d2|] eqn:H34; [|done].
  apply py_sub_inv in H12 as (a & b & -> & ->).
  apply py_sub_inv in H34 as (cs & ds & -> & ->).
  assert (H' : exists cpu,
    match getitem2 stats "memory_stats" "usage" with
    | Ok usage_v =>
        match getitem2 stats "memory_stats" "limit" with
        | Ok limit_v =>
            match as_int usage_v with
            | Ok memory_usage =>
                match as_int limit_v with
                | Ok memory_limit =>
                    match truediv memory_usage memory_limit with
                    | Ok ratio =>
                        match truediv memory_usage (1024 * 1024) with
                        | Ok usage_mb =>
                            match truediv memory_limit (1024 * 1024) with
                            | Ok limit_mb =>
                                Ok {| cpu_percent := py_round2 cpu;
                                      memory_mb := NFloat (round2 usage_mb);
                                      memory_limit_mb := NFloat (round2 limit_mb);
                                      memory_percent := NFloat (round2 (fmul ratio f100));
                                      online := true |}
                            | Raise e => Raise e
                            end
                        | Raise e => Raise e
                        end
                    | Raise e => Raise e
                    end
                | Raise e => Raise e
                end
            | Raise e => Raise e
            end
        | Raise e => Raise e
        end
    | Raise e => Raise e
    end = Ok s).
  { destruct (0 <? d2)%Z; [|by eexists].
    destruct (truediv d1 d2); [by eexists | done]. }
  clear H. destruct H' as (cpu & H).
  destruct (getitem2 stats "memory_stats" "usage") as [uv|]; [|done].
  destruct (getitem2 stats "memory_stats" "limit") as [lv|]; [|done].
  destruct (as_int uv) as [u|] eqn:Hu; [|done].
  destruct (as_int lv) as [l|] eqn:Hl; [|done].
  apply as_int_inv in Hu as ->. apply as_int_inv in Hl as ->.
  destruct (truediv u l) as [ratio|] eqn:Hdiv; [|done].
  exists a, b, cs, ds, u, l. repeat split; try done.
  - intros ->. by rewrite truediv_zero in Hdiv.
  - case_result H. by injection H as <-.
Qed.

(** X15. A sample is reported online only when the container resolved,
    its counters were read, all six counters are integers and the memory
    limit is not 0. *)
Theorem online_sample_needs_counters c w s :
  (get_server_stats (c, w)).1 = Ok s -> online s = true ->
  exists stats a b cs ds u l,
    fetch_stats (server_id c) w = Ok stats /\
    getitem3 stats "cpu_stats" "cpu_usage" "total_usage" = Ok (PInt a) /\
    getitem3 stats "precpu_stats" "cpu_usage" "total_usage" = Ok (PInt b) /\
    getitem2 stats "cpu_stats" "system_cpu_usage" = Ok (PInt cs) /\
    getitem2 stats "precpu_stats" "system_cpu_usage" = Ok (PInt ds) /\
    getitem2 stats "memory_stats" "usage" = Ok (PInt u) /\
    getitem2 stats "memory_stats" "limit" = Ok (PInt l) /\
    l ≠ 0%Z.
Proof.
  destruct (get_server_stats_resolves c w) as (evs & -> & _). cbn [fst].
  intros [= <-]. unfold sample_in.
  destruct (fetch_stats (server_id c) w) as [stats|e]; cbn; [|done].
  destruct (sample_of_stats stats) as [s|e] eqn:Hs; cbn; [|done].
  intros _. destruct (sample_of_stats_inv stats s Hs)
    as (a & b & cs & ds & u & l & H1 & H2 & H3 & H4 & H5 & H6 & H7 & _).
  by exists stats, a, b, cs, ds, u, l.
Qed.

(** X16. A running container whose reply gives a memory limit of 0 is
    reported with the offline sample: the division by the limit raises
    and the handler answers with zeros. *)
Theorem zero_memory_limit_is_offline c w stats :
  fetch_stats (server_id c) w = Ok stats ->
  getitem2 stats "memory_stats" "limit" = Ok (PInt 0) ->
  (get_server_stats (c, w)).1 = Ok offline_sample.
Proof.
  intros Hf Hl. destruct (get_server_stats_resolves c w) as (evs & -> & _). cbn [fst].
  f_equal. unfold sample_in. rewrite Hf. cbn.
  destruct (sample_of_stats stats) as [s|e] eqn:Hs; cbn; [|done].
  destruct (sample_of_stats_inv stats s Hs)
    as (a & b & cs & ds & u & l & _ & _ & _ & _ & _ & H6 & H7 & _).
  rewrite Hl in H6. injection H6 as <-. done.
Qed.

(** X17. The stats [connect] returns normally. For an authenticated
    user it accepts, joins the stats group of the server and starts
    exactly one sampling task, which it remembers; for any other user it
    closes the connection and changes neither groups nor tasks. *)
Theorem stats_connect_accepts_iff_authenticated c w :
  exists c' w',
    connect (c, w) = (Ok tt, (c', w')) /\
    (is_authenticated (scope_user c) = true ->
       trace w' = trace w ++ [EvAccept (channel_name c)] /\
       tasks w' = tasks w ++ [{| task_channel := channel_name c;
                                 task_server_id := scope_server_id c;
                                 task_coro := SendStatsLoop;
                                 task_cancelled := false |}] /\
       stats_task c' = Some (length (tasks w)) /\
       channel_name c ∈ default [] (groups w' !! ("stats_" +:+ scope_server_id c))) /\
    (is_authenticated (scope_user c) = false ->
       trace w' = trace w ++ [EvClose (channel_name c)] /\
       tasks w' = tasks w /\ groups w' = groups w /\ stats_task c' = None).
Proof.
  unfold connect, accept, close, group_add, create_task. munfold. cbn.
  destruct (is_authenticated (scope_user c)); cbn.
  - eexists _, _. split; [reflexivity|]. split; [|done]. intros _. cbn.
    repeat split. case_bool_decide as Hin; [done|].
    rewrite lookup_insert_eq. cbn. apply elem_of_app. right.
    by apply list_elem_of_singleton.
  - eexists _, _. split; [reflexivity|]. split; [done|]. by intros _.
Qed.

(** X18. A stats connection that was accepted and then disconnects
    leaves its sampling task cancelled and is no longer a member of the
    stats group; the disconnect itself writes nothing. *)
Theorem stats_connect_then_disconnect c w :
  is_authenticated (scope_user c) = true ->
  let s1 := (connect (c, w)).2 in
  let s2 := (disconnect s1).2 in
  (disconnect s1).1 = Ok tt /\
  tasks s2.2 = tasks w ++ [{| task_channel := channel_name c;
                              task_server_id := scope_server_id c;
                              task_coro := SendStatsLoop;
                              task_cancelled := true |}] /\
  (channel_name c ∉ default [] (groups s2.2 !! ("stats_" +:+ scope_server_id c))) /\
  trace s2.2 = trace w ++ [EvAccept (channel_name c)].
Proof.
  intros Hauth. cbv zeta.
  unfold connect, disconnect, accept, close, group_add, group_discard,
    create_task, cancel_task. munfold. cbn. rewrite Hauth. cbn.
  rewrite list_lookup_middle by done. cbn.
  rewrite insert_app_r_alt by lia. rewrite Nat.sub_diag. cbn.
  split; [done|]. split; [done|]. split; [|done].
  case_bool_decide as Hin.
  - destruct (groups w !! ("stats_" +:+ scope_server_id c)) as [m|] eqn:Hm.
    + rewrite lookup_insert_eq. cbn. rewrite list_elem_of_filter. intros [H _]. by apply H.
    + rewrite Hm. apply not_elem_of_nil.
  - rewrite lookup_insert_eq. rewrite lookup_insert_eq. cbn.
    rewrite list_elem_of_filter. intros [H _]. by apply H.
Qed.

End Sampler.
End SamplerFacts.

(** ** Further runs on the concrete worlds *)

Module LifecycleRuns.
Import Py Env PyStr Django ServerConsoleConsumer Scenario.
Import ConnectionFacts MessageFacts StreamFacts QueryFacts.

(** Alice, who owns server 7 through her profile, connects to its
    console. *)
Lemma connect_models_py_raises_witness :
  connect (conn_a, world_running) =
    (Raise (AttributeError "'Server' object has no attribute 'owner'"),
     (conn_a, add_events [EvCheckAccess "a" 7 1] world_running)).
Proof.
  apply (connect_models_py_raises conn_a world_running 7 server7);
    [reflexivity | reflexivity | reflexivity | repeat constructor].
Defined.

(** Connection [a] attaches to the running container and disconnects. *)
Lemma attach_then_disconnect_cancels_reader_witness :
  let s1 := (start_log_stream (conn_a, world_running)).2 in
  let s2 := (disconnect s1).2 in
  tasks s1.2 = [reader_task_of conn_a] /\
  tasks s2.2 = [cancelled (reader_task_of conn_a)] /\
  reader_tasks "7" s2.2 = [].
Proof.
  apply (attach_then_disconnect_cancels_reader conn_a world_running running7);
    [reflexivity | reflexivity | vm_compute; reflexivity].
Defined.

(** Connection [a] leaves the group it shares with [b]. *)
Lemma disconnect_leaves_group_witness :
  ("a" ∉ default [] (groups (disconnect (conn_a, world_running)).2.2 !! "console_7")) /\
  "b" ∈ default [] (groups (disconnect (conn_a, world_running)).2.2 !! "console_7").
Proof.
  destruct (disconnect_leaves_group conn_a world_running)
    as (w' & Hrun & _ & Hout & Hkeep & _).
  rewrite Hrun. cbn [fst snd]. split; [exact Hout|].
  apply (Hkeep "b"); [discriminate|]. vm_compute.
  apply list_elem_of_further, list_elem_of_here.
Defined.

(** The container of server 7 appears after a first, failed resolution. *)
Lemma get_container_retries_after_failure_witness :
  let c1 := (get_container (conn_a, world_stopped)).2.1 in
  (get_container (conn_a, world_stopped)).1 = Ok None /\
  (get_container (c1, world_running)).1 = Ok (Some "minecraft_server_7").
Proof.
  destruct (get_container_retries_after_failure conn_a world_stopped world_running running7)
    as (H1 & H2 & _); [reflexivity | reflexivity | reflexivity | vm_compute; reflexivity |].
  split; [exact H1 | exact H2].
Defined.

(** A frame of an unknown type, and a frame that is not JSON. *)
Lemma receive_edge_cases_witness :
  receive (Frame (Some "ping") None) (conn_a, world_running)
    = (Ok tt, (conn_a, world_running)) /\
  sends (trace (receive (BadFrame (mkExn "JSONDecodeError" "Expecting value"))
                  (conn_a, world_running)).2.2)
    = [("a", ErrorMsg "Expecting value")].
Proof.
  destruct (receive_edge_cases conn_a world_running) as (Hbad & Hunknown & _).
  split.
  - apply Hunknown; discriminate.
  - by rewrite Hbad.
Defined.

(** A blank line and a line with white space around it. *)
Lemma stream_logs_line_blank_witness :
  stream_logs_line "   " (conn_a, world_running) = (Ok tt, (conn_a, world_running)) /\
  sends (trace (stream_logs_line "  [Server] Done (3.2s)! " (conn_a, world_running)).2.2)
    = [("a", LogMsg (AStr "[Server] Done (3.2s)!") (AStr "SUCCESS") (AIso 42));
       ("b", LogMsg (AStr "[Server] Done (3.2s)!") (AStr "SUCCESS") (AIso 42))].
Proof.
  split.
  - apply (proj1 (stream_logs_line_blank conn_a world_running "   " eq_refl)).
    reflexivity.
  - destruct (proj2 (stream_logs_line_blank conn_a world_running
                       "  [Server] Done (3.2s)! " eq_refl) eq_refl)
      as (_ & evs & Hrun & Hs).
    rewrite Hrun. cbn [fst snd trace add_events world_running app]. rewrite Hs.
    vm_compute. reflexivity.
Defined.

(** The reader of connection [a] on two lines with a blank one between. *)
Lemma stream_logs_fanout_in_order_witness :
  let s1 := (start_log_stream (conn_a, world_running)).2 in
  sends (trace (stream_logs "minecraft_server_7"
                  ["Starting"; ""; "warn: low memory"] s1).2.2)
  = [("a", LogMsg (AStr "Starting") (AStr "INFO") (AIso 42));
     ("b", LogMsg (AStr "Starting") (AStr "INFO") (AIso 42));
     ("a", LogMsg (AStr "warn: low memory") (AStr "WARN") (AIso 42));
     ("b", LogMsg (AStr "warn: low memory") (AStr "WARN") (AIso 42))].
Proof.
  cbv zeta.
  destruct (stream_logs_fanout_in_order "minecraft_server_7"
              ["Starting"; ""; "warn: low memory"]
              (start_log_stream (conn_a, world_running)).2.1
              (start_log_stream (conn_a, world_running)).2.2
              0 (reader_task_of conn_a))
    as (evs & Hrun & Hs);
    [reflexivity | reflexivity | reflexivity | by eexists | by repeat constructor |].
  rewrite <- surjective_pairing in Hrun. rewrite Hrun.
  cbn [fst snd]. unfold add_events; cbn [trace]. rewrite EnvFacts.sends_app, Hs.
  vm_compute. reflexivity.
Defined.

(** The two rows of server 7, the newer one first, with a limit of 1 and
    with a limit of 100. *)
Lemma history_query_latest_first_witness :
  (ServerLog_recent "7" 1 (conn_a, world_three_logs)).1
    = Ok [{| ServerLog_id := 3; ServerLog_server_id := 7; ServerLog_timestamp := 9;
             ServerLog_log_entry := "second" |}] /\
  exists rows rest,
    ServerLog_recent "7" 100 (conn_a, world_three_logs) = (Ok rows, (conn_a, world_three_logs)) /\
    length rows = 2 /\ StronglySorted newer_first (rows ++ rest).
Proof.
  split; [vm_compute; reflexivity|].
  destruct (history_query_latest_first "7" 100 7 conn_a world_three_logs eq_refl)
    as (rows & rest & Hrun & Hlen & _ & Hsorted).
  exists rows, rest. split; [exact Hrun|]. split; [exact Hlen | exact Hsorted].
Defined.

End LifecycleRuns.

Module SamplerRuns.
Import Py Env PyStr ServerStatsConsumer Scenario QFloat SamplerFacts.

(** The sample of the running container of server 7. *)
Lemma online_sample_needs_counters_witness :
  (get_server_stats (init_attrs stats_conn, world_running)).1
    = Ok {| cpu_percent := NFloat 25%Q; memory_mb := NFloat 512%Q;
            memory_limit_mb := NFloat 2048%Q; memory_percent := NFloat 25%Q;
            online := true |} /\
  exists stats l,
    fetch_stats "7" world_running = Ok stats /\
    getitem2 stats "memory_stats" "limit" = Ok (PInt l) /\ l ≠ 0%Z.
Proof.
  assert (H : (get_server_stats (init_attrs stats_conn, world_running)).1
    = Ok {| cpu_percent := NFloat 25%Q; memory_mb := NFloat 512%Q;
            memory_limit_mb := NFloat 2048%Q; memory_percent := NFloat 25%Q;
            online := true |}) by (vm_compute; reflexivity).
  split; [exact H|].
  destruct (online_sample_needs_counters (init_attrs stats_conn) world_running _ H eq_refl)
    as (stats & a & b & cs & ds & u & l & Hf & _ & _ & _ & _ & _ & Hl & Hne).
  by exists stats, l.
Defined.

(** The container of server 7 runs and reports a memory limit of 0. *)
Lemma zero_memory_limit_is_offline_witness :
  (get_server_stats (init_attrs stats_conn, world_unlimited)).1 = Ok offline_sample.
Proof.
  apply (zero_memory_limit_is_offline (init_attrs stats_conn) world_unlimited
           (mk_stats 150 100 1200 1000 (512 * 1048576) 0));
    vm_compute; reflexivity.
Defined.

(** Mallory's connection, and the same connection without a login. *)
Lemma stats_connect_accepts_iff_authenticated_witness :
  trace (connect (stats_conn, world_running)).2.2 = [EvAccept "s"] /\
  length (tasks (connect (stats_conn, world_running)).2.2) = 1.
Proof.
  destruct (stats_connect_accepts_iff_authenticated stats_conn world_running)
    as (c' & w' & Hrun & Hyes & _).
  destruct (Hyes eq_refl) as (Htr & Hts & _).
  rewrite Hrun. cbn [fst snd]. by rewrite Htr, Hts.
Defined.

(** Mallory's connection is accepted, then closed by the client. *)
Lemma stats_connect_then_disconnect_witness :
  let s2 := (disconnect (connect (stats_conn, world_running)).2).2 in
  tasks s2.2 = [{| task_channel := "s"; task_server_id := "7";
                   task_coro := SendStatsLoop; task_cancelled := true |}] /\
  "s" ∉ default [] (groups s2.2 !! "stats_7").
Proof.
  destruct (stats_connect_then_disconnect stats_conn world_running eq_refl)
    as (_ & Hts & Hout & _).
  split; [exact Hts | exact Hout].
Defined.

End SamplerRuns.

Module ClassifierRuns.
Import PyStr Classifier ClassifierFacts CaseFacts.

(** A marker in mixed case. *)
Lemma parse_log_level_any_case_witness :
  Substring "Severe" "[Server thread/Severe]: could not load world" /\
  parse_log_level "[Server thread/Severe]: could not load world" = "ERROR".
Proof.
  assert (H : Substring "Severe" "[Server thread/Severe]: could not load world")
    by (apply str_in_spec; vm_compute; reflexivity).
  split; [exact H|].
  apply (proj1 (parse_log_level_any_case "Severe" _ H)). by right.
Defined.

End ClassifierRuns.
